(** * Developer health monitor: session segmentation and reminder scheduler

    A shallow embedding of [dev_health_monitor.py]: the session segmenter
    [analyze_sessions], the aggregations used by [get_summary_text] and by
    the rule evaluation, one iteration of [health_check_loop] as a state
    transformer, and the loop itself over a simulated clock.

    Numbers.  A naive [datetime] is the number of microseconds since
    0001-01-01T00:00:00, a [timedelta] a number of microseconds.  Python
    divides [total_seconds()] as a float; the quotients are modelled as exact
    rationals ([Q]): the operands are integers far below 2^53 and every
    comparison is against an integer constant, so the correctly rounded float
    and the rational compare alike. *)

From Stdlib Require Import String Ascii DecimalString.
From Stdlib Require Import ZArith QArith Qround List Bool Lia.
From Stdlib Require Import Sorted Permutation.
Import ListNotations.
Open Scope Z_scope.

(** ** The parts of Python's [datetime] the program uses *)

Module Datetime.

Definition datetime := Z.
Definition timedelta := Z.

Definition usec_per_second : Z := 1000000.
Definition usec_per_hour : Z := 3600 * usec_per_second.
Definition usec_per_day : Z := 86400 * usec_per_second.

(** [timedelta.total_seconds()] *)
Definition total_seconds (d : timedelta) : Q := d # 1000000.

(** [datetime.toordinal()]: day 1 is 0001-01-01. *)
Definition toordinal (t : datetime) : Z := t / usec_per_day + 1.

(** [datetime.date()], identified with its ordinal. *)
Definition date (t : datetime) : Z := toordinal t.

(** [datetime.hour], in 0..23. *)
Definition hour (t : datetime) : Z := (t / usec_per_hour) mod 24.

(** [_days_before_year] *)
Definition days_before_year (year : Z) : Z :=
  let y := year - 1 in
  y * 365 + y / 4 - y / 100 + y / 400.

(** The year of [_ord2ymd]. *)
Definition year_of_ordinal (ordinal : Z) : Z :=
  let n := ordinal - 1 in
  let n400 := n / 146097 in
  let n := n mod 146097 in
  let n100 := n / 36524 in
  let n := n mod 36524 in
  let n4 := n / 1461 in
  let n := n mod 1461 in
  let n1 := n / 365 in
  let year := n400 * 400 + 1 + n100 * 100 + n4 * 4 + n1 in
  if (n1 =? 4) || (n100 =? 4) then year - 1 else year.

(** [_isoweek1monday] *)
Definition isoweek1monday (year : Z) : Z :=
  let firstday := days_before_year year + 1 in
  let firstweekday := (firstday + 6) mod 7 in
  let week1monday := firstday - firstweekday in
  if 3 <? firstweekday then week1monday + 7 else week1monday.

(** [datetime.isocalendar()[1]]: the ISO week number alone, in 1..53. *)
Definition isocalendar_week (t : datetime) : Z :=
  let today := toordinal t in
  let year := year_of_ordinal today in
  let week := (today - isoweek1monday year) / 7 in
  if week <? 0 then (today - isoweek1monday (year - 1)) / 7 + 1
  else if (52 <=? week) && (isoweek1monday (year + 1) <=? today) then 1
  else week + 1.

(** [datetime.isocalendar()[0]]: the ISO year, which is the year before or
    after the calendar year for some days around the first of January. *)
Definition isocalendar_year (t : datetime) : Z :=
  let today := toordinal t in
  let year := year_of_ordinal today in
  let week := (today - isoweek1monday year) / 7 in
  if week <? 0 then year - 1
  else if (52 <=? week) && (isoweek1monday (year + 1) <=? today) then year + 1
  else year.

(** Building instants for examples: day ordinal and wall-clock time. *)
Definition at_time (ordinal h m s : Z) : datetime :=
  (ordinal - 1) * usec_per_day + ((h * 60 + m) * 60 + s) * usec_per_second.

Definition hours (n : Z) : timedelta := n * usec_per_hour.
Definition minutes (n : Z) : timedelta := n * 60 * usec_per_second.
Definition seconds (n : Z) : timedelta := n * usec_per_second.

End Datetime.

Import Datetime.

(** ** Python values *)

(** [x > y] and [x < y] on the rational model of floats. *)
Definition gt (x y : Q) : bool := negb (Qle_bool x y).
Definition lt (x y : Q) : bool := negb (Qle_bool y x).

(** [int(x)]: truncation toward zero. *)
Definition int (x : Q) : Z := Z.quot (Qnum x) (Zpos (Qden x)).

(** Truthiness of a list. *)
Definition nonempty {A : Type} (l : list A) : bool :=
  match l with [] => false | _ :: _ => true end.

(** [zip(l, l[1:])] *)
Definition adjacent {A : Type} (l : list A) : list (A * A) := combine l (tl l).

(** [sorted]: the ascending stable sort. *)
Fixpoint insert (x : datetime) (l : list datetime) : list datetime :=
  match l with
  | [] => [x]
  | y :: l' => if x <=? y then x :: l else y :: insert x l'
  end.

Fixpoint sorted (l : list datetime) : list datetime :=
  match l with
  | [] => []
  | x :: l' => insert x (sorted l')
  end.

(** [str(n)] for a length. *)
Definition str (n : nat) : string :=
  NilEmpty.string_of_uint (Nat.to_uint n).

Definition newline : string := String (ascii_of_nat 10) EmptyString.

(** ** Configurable settings *)

Definition LONG_SESSION_HOURS : Z := 3.
Definition LATE_NIGHT_START : Z := 22.
Definition LATE_NIGHT_END : Z := 6.
Definition MIN_BREAK_MINUTES : Z := 5.

(** ** Session segmenter *)

Definition Session := list datetime.

(** [s[0]] and [s[-1]]; sessions are never empty, the default is not used. *)
Definition first (s : Session) : datetime := hd 0 s.
Definition final (s : Session) : datetime := last s 0.

(** The body of the loop over [zip(commit_times, commit_times[1:])], on the
    pair [(sessions, session)]. *)
Definition segment_step (acc : list Session * Session)
    (pc : datetime * datetime) : list Session * Session :=
  let '(sessions, session) := acc in
  let '(prev, curr) := pc in
  let diff := (total_seconds (curr - prev)%Z / inject_Z 60)%Q in
  if gt diff (inject_Z MIN_BREAK_MINUTES)
  then (sessions ++ [session], [curr])
  else (sessions, session ++ [curr]).

(** [analyze_sessions]; the bare [return] on empty input is [None]. *)
Definition analyze_sessions (commit_times : list datetime)
    : option (list Session) :=
  if negb (nonempty commit_times) then None
  else
    let commit_times := sorted commit_times in
    let '(sessions, session) :=
      fold_left segment_step (adjacent commit_times)
                ([], [hd 0 commit_times]) in
    Some (if nonempty session then sessions ++ [session] else sessions).

(** Truthiness of the result: [None] and the empty list are falsy. *)
Definition truthy (r : option (list Session)) : bool :=
  match r with
  | Some sessions => nonempty sessions
  | None => false
  end.

(** ** Aggregations *)

Definition span (s : Session) : timedelta := final s - first s.

Definition is_long_session (s : Session) : bool :=
  gt (total_seconds (span s) / inject_Z 3600)%Q (inject_Z LONG_SESSION_HOURS).

Definition long_sessions (sessions : list Session) : list Session :=
  filter is_long_session sessions.

Definition is_no_break_session (s : Session) : bool :=
  forallb (fun '(prev, curr) =>
             lt (total_seconds (curr - prev)%Z / inject_Z 60)%Q (inject_Z 60))
          (adjacent s)
  && gt (total_seconds (span s) / inject_Z 3600)%Q (inject_Z 2).

Definition no_break_sessions (sessions : list Session) : list Session :=
  filter is_no_break_session sessions.

Definition is_late_night (c : datetime) : bool :=
  (LATE_NIGHT_START <=? hour c) || (hour c <? LATE_NIGHT_END).

Definition late_night_commits (sessions : list Session) : list datetime :=
  filter is_late_night (concat sessions).

(** [int((s[-1] - s[0]).total_seconds() / 60)] *)
Definition session_minutes (s : Session) : Z :=
  int (total_seconds (span s) / inject_Z 60)%Q.

(** [get_summary_text] *)
Definition get_summary_text (sessions : list Session) : string :=
  let long_sessions := long_sessions sessions in
  let late_night_commits := late_night_commits sessions in
  let lines :=
    [ ("--- Developer Health Summary ---" ++ newline)%string;
      ("Total coding sessions: " ++ str (length sessions))%string;
      ("Long sessions (> " ++ str (Z.to_nat LONG_SESSION_HOURS) ++ "h): "
         ++ str (length long_sessions))%string;
      ("Late-night commits (22:00-06:00): "
         ++ str (length late_night_commits))%string ]
    ++ (if nonempty long_sessions
        then [(newline ++ "⚠️  You had some long coding sessions. Remember to take breaks!")%string]
        else [])
    ++ (if nonempty late_night_commits
        then [(newline ++ "⚠️  You committed code late at night. Prioritize rest for better productivity.")%string]
        else [])
    ++ (if negb (nonempty long_sessions) && negb (nonempty late_night_commits)
        then [(newline ++ "✅ Your coding habits look healthy!")%string]
        else [])
    ++ [(newline ++ "All analysis is local. Your data never leaves your machine.")%string] in
  String.concat newline lines.

(** ** Reminder scheduler: the state of [health_check_loop] *)

Record State := mkState {
  last_break_reminder : option datetime;
  last_hydration_reminder : option datetime;
  last_activity_reminder : option datetime;
  last_ergonomics_tip : option datetime;
  last_mood_check : option datetime;
  daily_coding_minutes : Z;
  weekly_coding_minutes : Z;
  last_day : option Z;
  last_week : option Z;
  positive_reinforcement_given : bool;
  first_run : bool
}.

Definition hydration_interval : Z := 60.
Definition activity_interval : Z := 90.
Definition mood_check_interval : Z := 180.
Definition ergonomics_interval : Z := 120.

(** The state on entry to the loop. *)
Definition initial : State :=
  {| last_break_reminder := None;
     last_hydration_reminder := None;
     last_activity_reminder := None;
     last_ergonomics_tip := None;
     last_mood_check := None;
     daily_coding_minutes := 0;
     weekly_coding_minutes := 0;
     last_day := None;
     last_week := None;
     positive_reinforcement_given := false;
     first_run := true |}.

(** A notification is a (title, message) pair. *)
Definition Notification := (string * string)%type.

Definition long_alert (n : nat) : Notification :=
  ("Developer Health Alert",
   "You had " ++ str n ++ " long coding session(s). Remember to take breaks!")%string.
Definition break_alert : Notification :=
  ("Break Reminder",
   "You've been coding for over 2 hours without a significant break. Please take a break!")%string.
Definition night_alert : Notification :=
  ("Night Owl Alert",
   "You committed code late at night. Prioritize rest for better productivity.")%string.
Definition daily_alert : Notification :=
  ("Work Limit Warning",
   "You've coded more than 8 hours today. Consider taking a longer break!")%string.
Definition weekly_alert : Notification :=
  ("Weekly Limit Warning",
   "You've coded more than 40 hours this week. Watch for burnout!")%string.
Definition hydration_reminder : Notification :=
  ("Hydration Reminder", "Time to drink some water!")%string.
Definition activity_reminder : Notification :=
  ("Activity Reminder", "Stand up and stretch for a few minutes!")%string.
Definition ergonomics_tip : Notification :=
  ("Ergonomics Tip",
   "Check your posture and desk setup. 20-20-20 rule: every 20 minutes, look at something 20 feet away for 20 seconds.")%string.
Definition mood_check : Notification :=
  ("Mood Check-In",
   "How are you feeling? Take a moment to reflect on your mood and stress level.")%string.
Definition great_job : Notification :=
  ("Great Job!", "✅ Your coding habits look healthy! Keep it up!")%string.
Definition started : Notification :=
  ("Developer Health Monitor",
   "Monitoring started! You'll receive health notifications every 10 minutes.")%string.
Definition no_data : Notification :=
  ("Developer Health Monitor", "No commit data found.")%string.

(** [if c: notifications.append(n)] *)
Definition append_if (c : bool) (n : Notification)
    (notifications : list Notification) : list Notification :=
  if c then notifications ++ [n] else notifications.

(** [last != v] for a variable that starts as [None]. *)
Definition differs (last : option Z) (v : Z) : bool :=
  match last with
  | Some d => negb (d =? v)
  | None => true
  end.

(** [(now - last).total_seconds() / 60 if last else interval + 1]; a
    [datetime] is always truthy. *)
Definition minutes_since (now : datetime) (last : option datetime)
    (interval : Z) : Q :=
  match last with
  | Some t => (total_seconds (now - t)%Z / inject_Z 60)%Q
  | None => inject_Z (interval + 1)
  end.

(** The body of [for s in sessions] on the pair of accumulators. *)
Definition accumulate (today week : Z) (acc : Z * Z) (s : Session) : Z * Z :=
  let '(daily_coding_minutes, weekly_coding_minutes) := acc in
  (if date (first s) =? today
   then daily_coding_minutes + session_minutes s
   else daily_coding_minutes,
   if isocalendar_week (first s) =? week
   then weekly_coding_minutes + session_minutes s
   else weekly_coding_minutes).

(** Day and week boundaries: [if last_day != today] and
    [if last_week != week]. *)
Definition roll_boundaries (now : datetime) (st : State) : State :=
  let today := date now in
  let week := isocalendar_week now in
  let new_day := differs (last_day st) today in
  let new_week := differs (last_week st) week in
  {| last_break_reminder := last_break_reminder st;
     last_hydration_reminder := last_hydration_reminder st;
     last_activity_reminder := last_activity_reminder st;
     last_ergonomics_tip := last_ergonomics_tip st;
     last_mood_check := last_mood_check st;
     daily_coding_minutes := if new_day then 0 else daily_coding_minutes st;
     weekly_coding_minutes := if new_week then 0 else weekly_coding_minutes st;
     last_day := if new_day then Some today else last_day st;
     last_week := if new_week then Some week else last_week st;
     positive_reinforcement_given :=
       if new_day then false else positive_reinforcement_given st;
     first_run := first_run st |}.

(** Adding up today's and this week's coding minutes: [for s in sessions]. *)
Definition add_coding_minutes (now : datetime) (sessions : list Session)
    (st : State) : State :=
  let today := date now in
  let week := isocalendar_week now in
  let totals :=
    fold_left (accumulate today week) sessions
              (daily_coding_minutes st, weekly_coding_minutes st) in
  {| last_break_reminder := last_break_reminder st;
     last_hydration_reminder := last_hydration_reminder st;
     last_activity_reminder := last_activity_reminder st;
     last_ergonomics_tip := last_ergonomics_tip st;
     last_mood_check := last_mood_check st;
     daily_coding_minutes := fst totals;
     weekly_coding_minutes := snd totals;
     last_day := last_day st;
     last_week := last_week st;
     positive_reinforcement_given := positive_reinforcement_given st;
     first_run := first_run st |}.

(** The five alert conditions, as tested for the positive reinforcement:
    [long_sessions or no_break_sessions or late_night_commits or
    daily_coding_minutes > 8*60 or weekly_coding_minutes > 40*60]. *)
Definition any_alert (sessions : list Session) (st : State) : bool :=
  nonempty (long_sessions sessions)
  || nonempty (no_break_sessions sessions)
  || nonempty (late_night_commits sessions)
  || (8 * 60 <? daily_coding_minutes st)
  || (40 * 60 <? weekly_coding_minutes st).

(** Break detection, night owl, reminders: the notifications of an
    iteration and the reminder times and flag it sets. *)
Definition collect_notifications (now : datetime) (sessions : list Session)
    (st : State) : State * list Notification :=
  let long_sessions := long_sessions sessions in
  let no_break_sessions := no_break_sessions sessions in
  let late_night_commits := late_night_commits sessions in
  let hydration :=
    gt (minutes_since now (last_hydration_reminder st) hydration_interval)
       (inject_Z hydration_interval) in
  let activity :=
    gt (minutes_since now (last_activity_reminder st) activity_interval)
       (inject_Z activity_interval) in
  let ergonomics :=
    gt (minutes_since now (last_ergonomics_tip st) ergonomics_interval)
       (inject_Z ergonomics_interval) in
  let mood :=
    gt (minutes_since now (last_mood_check st) mood_check_interval)
       (inject_Z mood_check_interval) in
  let positive :=
    negb (any_alert sessions st) && negb (positive_reinforcement_given st) in
  let notifications := [] in
  let notifications :=
    append_if (nonempty long_sessions) (long_alert (length long_sessions))
              notifications in
  let notifications :=
    append_if (nonempty no_break_sessions) break_alert notifications in
  let notifications :=
    append_if (nonempty late_night_commits) night_alert notifications in
  let notifications :=
    append_if (8 * 60 <? daily_coding_minutes st) daily_alert notifications in
  let notifications :=
    append_if (40 * 60 <? weekly_coding_minutes st) weekly_alert
              notifications in
  let notifications := append_if hydration hydration_reminder notifications in
  let notifications := append_if activity activity_reminder notifications in
  let notifications := append_if ergonomics ergonomics_tip notifications in
  let notifications := append_if mood mood_check notifications in
  let notifications := append_if positive great_job notifications in
  ({| last_break_reminder := last_break_reminder st;
      last_hydration_reminder :=
        if hydration then Some now else last_hydration_reminder st;
      last_activity_reminder :=
        if activity then Some now else last_activity_reminder st;
      last_ergonomics_tip :=
        if ergonomics then Some now else last_ergonomics_tip st;
      last_mood_check := if mood then Some now else last_mood_check st;
      daily_coding_minutes := daily_coding_minutes st;
      weekly_coding_minutes := weekly_coding_minutes st;
      last_day := last_day st;
      last_week := last_week st;
      positive_reinforcement_given :=
        if positive then true else positive_reinforcement_given st;
      first_run := first_run st |},
   notifications).

(** The branch of an iteration that evaluates the rules ([sessions] is
    truthy and it is not the first run), in the order of the source. *)
Definition evaluate_rules (now : datetime) (sessions : list Session)
    (st : State) : State * list Notification :=
  collect_notifications now sessions
    (add_coding_minutes now sessions (roll_boundaries now st)).

(** What an iteration does to the outside, in order. *)
Inductive Event :=
| Stdout (text : string)
| Printed (text : string)
| Popup (n : Notification)
| Sleep (secs : Z).

Definition clear_first_run (st : State) : State :=
  {| last_break_reminder := last_break_reminder st;
     last_hydration_reminder := last_hydration_reminder st;
     last_activity_reminder := last_activity_reminder st;
     last_ergonomics_tip := last_ergonomics_tip st;
     last_mood_check := last_mood_check st;
     daily_coding_minutes := daily_coding_minutes st;
     weekly_coding_minutes := weekly_coding_minutes st;
     last_day := last_day st;
     last_week := last_week st;
     positive_reinforcement_given := positive_reinforcement_given st;
     first_run := false |}.

(** [print_func(text)] when a print function was passed. *)
Definition printed (print_func : bool) (text : string) : list Event :=
  if print_func then [Printed text] else [].

(** [for title, msg in notifications: show_popup_func(title, msg); time.sleep(2)] *)
Definition show (notifications : list Notification) : list Event :=
  flat_map (fun n => [Popup n; Sleep 2]) notifications.

(** One iteration of [while True], up to the wait: [now] is
    [datetime.datetime.now()], [commit_times] what [get_git_commit_times()]
    returned, [print_func] whether a print function was passed. *)
Definition tick (print_func : bool) (now : datetime)
    (commit_times : list datetime) (st : State) : State * list Event :=
  let sessions := analyze_sessions commit_times in
  let out :=
    if nonempty commit_times then [] else [Stdout "No commit data found."] in
  if first_run st then (clear_first_run st, out ++ [Popup started])
  else
    match sessions with
    | Some ((_ :: _) as sessions) =>
        let '(st', notifications) := evaluate_rules now sessions st in
        (st', out ++ printed print_func (get_summary_text sessions)
                  ++ show notifications)
    | _ =>
        (st, out ++ printed print_func "No commit data found."
                 ++ [Popup no_data])
    end.

(** The notifications an iteration shows. *)
Definition popups (events : list Event) : list Notification :=
  flat_map (fun e => match e with Popup n => [n] | _ => [] end) events.

(** ** The loop over a simulated clock

    Elapsed time is counted in microseconds from the call of
    [health_check_loop]; only [time.sleep] takes time.  The world gives, at
    each elapsed time, the wall clock and the commit history, and the elapsed
    time at which [stop_event] gets set ([None]: no event was passed, or it
    is never set). *)

Record World := mkWorld {
  wall_clock : Z -> datetime;
  git_log : Z -> list datetime;
  stop_set_at : option Z
}.

(** [stop_event and stop_event.is_set()] *)
Definition is_set (w : World) (clock : Z) : bool :=
  match stop_set_at w with
  | Some t => t <=? clock
  | None => false
  end.

(** Events against the clock: each is stamped with the time it starts. *)
Fixpoint play (clock : Z) (events : list Event) : list (Z * Event) * Z :=
  match events with
  | [] => ([], clock)
  | e :: events' =>
      let clock' := match e with Sleep n => clock + seconds n | _ => clock end in
      let '(trace, finish) := play clock' events' in
      ((clock, e) :: trace, finish)
  end.

(** [for _ in range(n): if stop_event and stop_event.is_set(): return;
    time.sleep(1)]: the clock at the end, and whether the loop returned. *)
Fixpoint wait (w : World) (clock : Z) (n : nat) : Z * bool :=
  match n with
  | O => (clock, false)
  | S n' => if is_set w clock then (clock, true)
            else wait w (clock + seconds 1) n'
  end.

(** [while True], at most [fuel] iterations: the stamped events and the
    elapsed time at which the function returned, if it did. *)
Fixpoint loop (fuel : nat) (w : World) (print_func : bool) (st : State)
    (clock : Z) : list (Z * Event) * option Z :=
  match fuel with
  | O => ([], None)
  | S fuel' =>
      let '(st', events) :=
        tick print_func (wall_clock w clock) (git_log w clock) st in
      let '(trace, clock) := play clock events in
      let '(clock, stopped) := wait w clock 600 in
      if stopped then (trace, Some clock)
      else
        let '(trace', result) := loop fuel' w print_func st' clock in
        (trace ++ trace', result)
  end.

Definition health_check_loop (fuel : nat) (w : World) (print_func : bool)
    : list (Z * Event) * option Z :=
  loop fuel w print_func initial 0.

(** The iterations of the loop one after another, on the successive values
    of [now] and of the commit history: the state after them and the events
    of each. *)
Fixpoint ticks (print_func : bool) (inputs : list (datetime * list datetime))
    (st : State) : State * list (list Event) :=
  match inputs with
  | [] => (st, [])
  | (now, commit_times) :: inputs' =>
      let '(st', events) := tick print_func now commit_times st in
      let '(st'', rest) := ticks print_func inputs' st' in
      (st'', events :: rest)
  end.

(** The values of [now] and of the commit history that the first [fuel]
    iterations of the loop read when no stop signal ends it: an iteration
    starts when the events of the one before have played and the wait of 600
    seconds is over. *)
Fixpoint schedule (fuel : nat) (w : World) (print_func : bool) (st : State)
    (clock : Z) : list (datetime * list datetime) :=
  match fuel with
  | O => []
  | S fuel' =>
      let now := wall_clock w clock in
      let commit_times := git_log w clock in
      let '(st', events) := tick print_func now commit_times st in
      (now, commit_times)
        :: schedule fuel' w print_func st'
                    (snd (play clock events) + seconds 600)
  end.

(** ** Vocabulary of the specification *)

(** The four periodic reminders, with their interval, the variable that
    holds the time each last fired, and their notification. *)
Inductive Reminder := Hydration | Activity | Ergonomics | Mood.

Definition interval (k : Reminder) : Z :=
  match k with
  | Hydration => hydration_interval
  | Activity => activity_interval
  | Ergonomics => ergonomics_interval
  | Mood => mood_check_interval
  end.

Definition last_reminder_time (k : Reminder) (st : State) : option datetime :=
  match k with
  | Hydration => last_hydration_reminder st
  | Activity => last_activity_reminder st
  | Ergonomics => last_ergonomics_tip st
  | Mood => last_mood_check st
  end.

Definition reminder (k : Reminder) : Notification :=
  match k with
  | Hydration => hydration_reminder
  | Activity => activity_reminder
  | Ergonomics => ergonomics_tip
  | Mood => mood_check
  end.

(** The five alerts, whatever the count in the first. *)
Definition is_alert (n : Notification) : Prop :=
  (exists count, n = long_alert count)
  \/ n = break_alert \/ n = night_alert \/ n = daily_alert \/ n = weekly_alert.

Definition sum (l : list Z) : Z := fold_right Z.add 0 l.

(** Following the specification: the sum of the duration in minutes, floored
    to an integer, of every session whose start date equals [today]. *)
Definition daily_minutes_delta (today : Z) (sessions : list Session) : Z :=
  sum (map (fun s => Qfloor (total_seconds (span s) / inject_Z 60)%Q)
           (filter (fun s => date (first s) =? today) sessions)).

(** What the loop over the sessions adds to the weekly minutes: the minutes
    of every session whose start has the ISO week number [week], in whatever
    year ([s[0].isocalendar()[1] == week]). *)
Definition minutes_of_week_number (week : Z) (sessions : list Session) : Z :=
  sum (map (fun s => Qfloor (total_seconds (span s) / inject_Z 60)%Q)
           (filter (fun s => isocalendar_week (first s) =? week) sessions)).

(** The ISO week of an instant: its ISO year and its week number. *)
Definition iso_week (t : datetime) : Z * Z :=
  (isocalendar_year t, isocalendar_week t).


Definition Notification_eq_dec (x y : Notification) : {x = y} + {x <> y}.
Proof. decide equality; apply string_dec. Defined.

(** The condition under which reminder [k] is due. *)
Definition due (k : Reminder) (now : datetime) (st : State) : bool :=
  gt (minutes_since now (last_reminder_time k st) (interval k))
     (inject_Z (interval k)).

(** The condition under which the positive reinforcement is given. *)
Definition positive (sessions : list Session) (st : State) : bool :=
  negb (any_alert sessions st) && negb (positive_reinforcement_given st).

(** Sleeps do not run backwards. *)
Definition no_negative_sleep (e : Event) : Prop :=
  match e with Sleep n => 0 <= n | _ => True end.

(** How many times a notification is shown in the events of some
    iterations. *)
Definition times_shown (n : Notification) (events : list (list Event)) : nat :=
  count_occ Notification_eq_dec (popups (concat events)) n.

(** ** Shape of a segmentation

    The predicates in which the segmenter's result is described. *)

(** Neighbours in a session are at most [MIN_BREAK_MINUTES] apart. *)
Definition within_break (s : Session) : Prop :=
  Forall (fun '(prev, curr) => curr - prev <= minutes MIN_BREAK_MINUTES)
         (adjacent s).

(** A session starts more than [MIN_BREAK_MINUTES] after the end of the
    session before it. *)
Definition separated (sessions : list Session) : Prop :=
  Forall (fun '(before, after) =>
            minutes MIN_BREAK_MINUTES < first after - final before)
         (adjacent sessions).

Definition segmented (sessions : list Session) : Prop :=
  Forall (fun s => s <> []) sessions
  /\ Forall within_break sessions
  /\ separated sessions.

(** The three branches of an iteration. *)
Inductive Branch (print_func : bool) (now : datetime)
    (commit_times : list datetime) (st : State) : Prop :=
| FirstRun :
    first_run st = true ->
    fst (tick print_func now commit_times st) = clear_first_run st ->
    popups (snd (tick print_func now commit_times st)) = [started] ->
    Branch print_func now commit_times st
| NoData :
    first_run st = false ->
    commit_times = [] ->
    fst (tick print_func now commit_times st) = st ->
    popups (snd (tick print_func now commit_times st)) = [no_data] ->
    Branch print_func now commit_times st
| Rules (sessions : list Session) :
    first_run st = false ->
    analyze_sessions commit_times = Some sessions ->
    tick print_func now commit_times st
    = (fst (evaluate_rules now sessions st),
       printed print_func (get_summary_text sessions)
         ++ show (snd (evaluate_rules now sessions st))) ->
    popups (snd (tick print_func now commit_times st))
    = snd (evaluate_rules now sessions st) ->
    Branch print_func now commit_times st.

(** ** Further vocabulary *)

(** A pair of neighbours more than [MIN_BREAK_MINUTES] apart. *)
Definition is_break (pc : datetime * datetime) : bool :=
  minutes MIN_BREAK_MINUTES <? snd pc - fst pc.

(** [l1] is [l2] with some elements left out, the others in their order. *)
Inductive subsequence {A : Type} : list A -> list A -> Prop :=
| subsequence_nil : subsequence [] []
| subsequence_skip (x : A) (l1 l2 : list A) :
    subsequence l1 l2 -> subsequence l1 (x :: l2)
| subsequence_keep (x : A) (l1 l2 : list A) :
    subsequence l1 l2 -> subsequence (x :: l1) (x :: l2).

(** The ten notifications of a rule evaluation in the order in which the
    source appends them, for [n] long sessions. *)
Definition priority (n : nat) : list Notification :=
  [long_alert n; break_alert; night_alert; daily_alert; weekly_alert;
   hydration_reminder; activity_reminder; ergonomics_tip; mood_check;
   great_job].

(** No rule has been evaluated yet: the state is as on entry to the loop,
    up to the first-run flag. *)
Definition never_evaluated (st : State) : Prop :=
  last_day st = None /\ last_week st = None
  /\ last_hydration_reminder st = None /\ last_activity_reminder st = None
  /\ last_ergonomics_tip st = None /\ last_mood_check st = None
  /\ daily_coding_minutes st = 0 /\ weekly_coding_minutes st = 0
  /\ positive_reinforcement_given st = false.

(** Rules have been evaluated: day, week and every reminder time are set. *)
Definition evaluated (st : State) : Prop :=
  last_day st <> None /\ last_week st <> None
  /\ forall k, last_reminder_time k st <> None.

(** ** Command-line functions *)

(** What the command-line functions do to the outside, in order: [print],
    the prompt of [input], [notification.notify] and [time.sleep]. *)
Inductive Console :=
| Line (text : string)
| Prompt (text : string)
| Native (n : Notification)
| Pause (secs : Z).

(** [show_native_notification]; [notification] tells whether plyer was
    imported. *)
Definition show_native_notification (notification : bool) (n : Notification)
    : list Console :=
  if notification then [Native n] else [].

(** [str.isspace] on the ASCII characters: tab to carriage return, the four
    separators 28 to 31, and the space. *)
Definition isspace (c : ascii) : bool :=
  let n := nat_of_ascii c in
  ((9 <=? n) && (n <=? 13) || (28 <=? n) && (n <=? 32))%nat.

Fixpoint lstrip (s : string) : string :=
  match s with
  | EmptyString => EmptyString
  | String c s' => if isspace c then lstrip s' else s
  end.

Fixpoint rstrip (s : string) : string :=
  match s with
  | EmptyString => EmptyString
  | String c s' =>
      match rstrip s' with
      | EmptyString => if isspace c then EmptyString else String c EmptyString
      | r => String c r
      end
  end.

(** [str.strip()], for the ASCII strings it is applied to. *)
Definition strip (s : string) : string := rstrip (lstrip s).

(** The list [lines] of [get_summary_text] before it is joined. *)
Definition summary_lines (sessions : list Session) : list string :=
  let long_sessions := long_sessions sessions in
  let late_night_commits := late_night_commits sessions in
  [ ("--- Developer Health Summary ---" ++ newline)%string;
    ("Total coding sessions: " ++ str (length sessions))%string;
    ("Long sessions (> " ++ str (Z.to_nat LONG_SESSION_HOURS) ++ "h): "
       ++ str (length long_sessions))%string;
    ("Late-night commits (22:00-06:00): "
       ++ str (length late_night_commits))%string ]
  ++ (if nonempty long_sessions
      then [(newline ++ "⚠️  You had some long coding sessions. Remember to take breaks!")%string]
      else [])
  ++ (if nonempty late_night_commits
      then [(newline ++ "⚠️  You committed code late at night. Prioritize rest for better productivity.")%string]
      else [])
  ++ (if negb (nonempty long_sessions) && negb (nonempty late_night_commits)
      then [(newline ++ "✅ Your coding habits look healthy!")%string]
      else [])
  ++ [(newline ++ "All analysis is local. Your data never leaves your machine.")%string].

Definition healthy_line : string :=
  (newline ++ "✅ Your coding habits look healthy!")%string.

(** The message that [print_summary] builds for the alert, before
    [strip]. *)
Definition summary_alert_message (sessions : list Session) : string :=
  let long_sessions := long_sessions sessions in
  let late_night_commits := late_night_commits sessions in
  let msg := EmptyString in
  let msg :=
    if nonempty long_sessions
    then (msg ++ ("You had " ++ str (length long_sessions)
                    ++ " long coding session(s). Remember to take breaks!"
                    ++ newline))%string
    else msg in
  let msg :=
    if nonempty late_night_commits
    then (msg ++ "You committed code late at night. Prioritize rest!")%string
    else msg in
  msg.

(** [print_summary]; [None] when it raises: [get_summary_text] takes
    [s[-1]] of every session before anything is printed, which is an
    [IndexError] on an empty session. *)
Definition print_summary (notification : bool) (sessions : list Session)
    : option (list Console) :=
  if forallb nonempty sessions
  then
    let summary := get_summary_text sessions in
    let long_sessions := long_sessions sessions in
    let late_night_commits := late_night_commits sessions in
    Some (Line summary
            :: (if nonempty long_sessions || nonempty late_night_commits
                then show_native_notification notification
                       ("Developer Health Alert"%string,
                        strip (summary_alert_message sessions))
                else show_native_notification notification
                       ("Developer Health"%string,
                        "✅ Your coding habits look healthy!"%string)))
  else None.

(** The list [notifications] of [test_popups] in [cli_test]. *)
Definition test_notifications : list Notification :=
  [ ("Developer Health Alert",
     "You had 2 long coding session(s). Remember to take breaks!");
    ("Break Reminder",
     "You've been coding for over 2 hours without a significant break. Please take a break!");
    ("Night Owl Alert",
     "You committed code late at night. Prioritize rest for better productivity.");
    ("Work Limit Warning",
     "You've coded more than 8 hours today. Consider taking a longer break!");
    ("Weekly Limit Warning",
     "You've coded more than 40 hours this week. Watch for burnout!");
    ("Hydration Reminder", "Time to drink some water!");
    ("Activity Reminder", "Stand up and stretch for a few minutes!");
    ("Ergonomics Tip",
     "Check your posture and desk setup. 20-20-20 rule: every 20 minutes, look at something 20 feet away for 20 seconds.");
    ("Mood Check-In",
     "How are you feeling? Take a moment to reflect on your mood and stress level.");
    ("Great Job!", "✅ Your coding habits look healthy! Keep it up!") ]%string.

(** The list [notifications] of [test_popups_gui] in [run_gui]. *)
Definition gui_test_notifications : list Notification :=
  [ ("Developer Health Alert",
     "You had 2 long coding session(s). Remember to take breaks!");
    ("Break Reminder",
     "You've been coding for over 2 hours without a significant break. Please take a break!");
    ("Night Owl Alert",
     "You committed code late at night. Prioritize rest for better productivity.");
    ("Work Limit Warning",
     "You've coded more than 8 hours today. Consider taking a longer break!");
    ("Weekly Limit Warning",
     "You've coded more than 40 hours this week. Watch for burnout!");
    ("Hydration Reminder", "Time to drink some water!");
    ("Activity Reminder", "Stand up and stretch for a few minutes!");
    ("Ergonomics Tip",
     "Check your posture and desk setup. 20-20-20 rule: every 20 minutes, look at something 20 feet away for 20 seconds.");
    ("Mood Check-In",
     "How are you feeling? Take a moment to reflect on your mood and stress level.");
    ("Great Job!", "✅ Your coding habits look healthy! Keep it up!") ]%string.

(** [show_all] of [test_popups_gui]: each message box with the delay in
    milliseconds after which [window.after] shows it. *)
Definition show_all : list (Z * Notification) :=
  combine (map (fun i => Z.of_nat i * 2000)
               (seq 0 (length gui_test_notifications)))
          gui_test_notifications.

(** [test_popups] of [cli_test] *)
Definition test_popups (notification : bool) : list Console :=
  flat_map (fun n => show_native_notification notification n ++ [Pause 2])
           test_notifications.

(** How [cli_test] ends: it returns after [exit], or [input] raises
    [EOFError] when the input has no more lines. *)
Inductive Outcome := Returned | RaisedEOFError.

(** The loop of [cli_test] on the lines that [input] reads, in order; when
    none is left [input] raises [EOFError].  [str_strip] is [str.strip],
    which the loop applies to every line before it compares it. *)
Fixpoint command_loop (str_strip : string -> string) (notification : bool)
    (lines : list string) : list Console * Outcome :=
  match lines with
  | [] => ([Prompt "cli-test> "], RaisedEOFError)
  | line :: lines' =>
      let cmd := str_strip line in
      if (cmd =? "exit")%string then ([Prompt "cli-test> "], Returned)
      else
        let out :=
          if (cmd =? "pup-1")%string then test_popups notification
          else [Line "Unknown command. Try 'pup-1' or 'exit'."] in
        let '(events, outcome) :=
          command_loop str_strip notification lines' in
        (Prompt "cli-test> " :: out ++ events, outcome)
  end.

(** [cli_test] *)
Definition cli_test (str_strip : string -> string) (notification : bool)
    (lines : list string) : list Console * Outcome :=
  let '(events, outcome) := command_loop str_strip notification lines in
  (Line "Developer Health Monitor CLI Test Mode"
     :: Line "Type 'pup-1' to trigger all popups in sequence (2s interval). Type 'exit' to quit."
     :: events,
   outcome).

(** The notifications delivered and the seconds slept in some console
    events. *)
Definition natives (events : list Console) : list Notification :=
  flat_map (fun e => match e with Native n => [n] | _ => [] end) events.

Definition paused (events : list Console) : Z :=
  sum (flat_map (fun e => match e with Pause n => [n] | _ => [] end) events).

(** The commands before the first [exit]. *)
Fixpoint until_exit (commands : list string) : list string :=
  match commands with
  | [] => []
  | cmd :: commands' =>
      if (cmd =? "exit")%string then [] else cmd :: until_exit commands'
  end.

(** * Proofs *)

(** ** Rational comparisons as integer comparisons on microseconds *)

Lemma gt_minutes (d m : Z) :
  gt (total_seconds d / inject_Z 60)%Q (inject_Z m) = (m * 60000000 <? d).
Proof.
  unfold gt, Qle_bool, total_seconds, Qdiv, Qmult, Qinv, inject_Z; simpl.
  rewrite Z.ltb_antisym. f_equal. f_equal; lia.
Qed.

Lemma lt_minutes (d m : Z) :
  lt (total_seconds d / inject_Z 60)%Q (inject_Z m) = (d <? m * 60000000).
Proof.
  unfold lt, Qle_bool, total_seconds, Qdiv, Qmult, Qinv, inject_Z; simpl.
  rewrite Z.ltb_antisym. f_equal. f_equal; lia.
Qed.

Lemma gt_hours (d h : Z) :
  gt (total_seconds d / inject_Z 3600)%Q (inject_Z h) = (h * 3600000000 <? d).
Proof.
  unfold gt, Qle_bool, total_seconds, Qdiv, Qmult, Qinv, inject_Z; simpl.
  rewrite Z.ltb_antisym. f_equal. f_equal; lia.
Qed.

Lemma int_minutes (d : Z) :
  0 <= d -> int (total_seconds d / inject_Z 60)%Q = d / 60000000.
Proof.
  intros Hd.
  unfold int, total_seconds, Qdiv, Qmult, Qinv, inject_Z; simpl.
  rewrite Z.mul_1_r. apply Z.quot_div_nonneg; lia.
Qed.

(** On exact rationals, [int] of a non-negative quotient is its floor. *)
Lemma int_floor (x : Q) : (0 <= Qnum x) -> int x = Qfloor x.
Proof.
  destruct x as [n d]; simpl. intros Hn. apply Z.quot_div_nonneg; lia.
Qed.

(** ** The calendar model on known dates

    Day 739923 is Tuesday 2026-11-03, in ISO week 45; 2024-12-30 is in week 1
    of 2025, 2021-01-01 in week 53 of 2020, 2023-01-01 in week 52 of 2022. *)

Example isocalendar_week_known :
  days_before_year 2026 + 307 = 739923
  /\ isocalendar_week (at_time 739923 12 0 0) = 45
  /\ isocalendar_week (at_time (days_before_year 2024 + 365) 0 0 0) = 1
  /\ isocalendar_week (at_time (days_before_year 2021 + 1) 23 59 59) = 53
  /\ isocalendar_week (at_time (days_before_year 2023 + 1) 8 0 0) = 52
  /\ date (at_time 739923 23 59 59) = 739923
  /\ hour (at_time 739923 23 59 59) = 23.
Proof. repeat split. Qed.

Example iso_week_known :
  iso_week (at_time 739923 12 0 0) = (2026, 45)
  /\ iso_week (at_time (days_before_year 2024 + 365) 0 0 0) = (2025, 1)
  /\ iso_week (at_time (days_before_year 2021 + 1) 23 59 59) = (2020, 53)
  /\ iso_week (at_time (days_before_year 2023 + 1) 8 0 0) = (2022, 52)
  /\ iso_week (at_time 739559 12 0 0) = (2025, 45).
Proof. vm_compute. repeat split. Qed.

(** ** [sorted] sorts *)

Lemma insert_Permutation (x : datetime) (l : list datetime) :
  Permutation (x :: l) (insert x l).
Proof.
  induction l as [|y l IH]; simpl.
  - apply Permutation_refl.
  - destruct (x <=? y).
    + apply Permutation_refl.
    + eapply perm_trans; [apply perm_swap|]. apply perm_skip, IH.
Qed.

Lemma sorted_Permutation (l : list datetime) : Permutation l (sorted l).
Proof.
  induction l as [|x l IH]; simpl.
  - constructor.
  - eapply perm_trans; [apply perm_skip, IH|]. apply insert_Permutation.
Qed.

Lemma insert_Sorted (x : datetime) (l : list datetime) :
  Sorted Z.le l -> Sorted Z.le (insert x l).
Proof.
  induction l as [|y l IH]; simpl; intros Hs.
  - repeat constructor.
  - destruct (x <=? y) eqn:E.
    + constructor; [assumption|]. constructor. lia.
    + inversion Hs as [|? ? Hl Hy]; subst.
      constructor; [apply IH; assumption|].
      destruct l as [|z l]; simpl.
      * constructor. lia.
      * destruct (x <=? z); constructor; [lia|].
        inversion Hy; subst. assumption.
Qed.

Lemma sorted_Sorted (l : list datetime) : Sorted Z.le (sorted l).
Proof.
  induction l as [|x l IH]; simpl.
  - constructor.
  - apply insert_Sorted, IH.
Qed.

Lemma sorted_nonempty (l : list datetime) :
  nonempty l = true -> nonempty (sorted l) = true.
Proof.
  intros H. destruct (sorted l) eqn:E; [|reflexivity].
  destruct l; [discriminate|].
  pose proof (Permutation_length (sorted_Permutation (d :: l))) as Hl.
  rewrite E in Hl. discriminate.
Qed.

(** ** Neighbouring pairs of a list that grows at its end *)

Section Adjacent.
Context {A : Type}.

Lemma adjacent_cons (x y : A) (l : list A) :
  adjacent (x :: y :: l) = (x, y) :: adjacent (y :: l).
Proof. reflexivity. Qed.

Lemma adjacent_snoc (l : list A) (a d : A) :
  l <> [] -> adjacent (l ++ [a]) = adjacent l ++ [(last l d, a)].
Proof.
  induction l as [|x l IH]; [congruence|]. intros _.
  destruct l as [|y l]; [reflexivity|].
  change (adjacent ((x :: y :: l) ++ [a]))
    with ((x, y) :: adjacent ((y :: l) ++ [a])).
  rewrite IH by discriminate. reflexivity.
Qed.

Lemma Forall_adjacent_snoc (P : A * A -> Prop) (l : list A) (a d : A) :
  Forall P (adjacent (l ++ [a]))
  <-> Forall P (adjacent l) /\ (l <> [] -> P (last l d, a)).
Proof.
  destruct l as [|x l].
  - simpl. split; [intros _; split; [constructor|congruence]|constructor].
  - rewrite (adjacent_snoc (x :: l) a d) by discriminate.
    rewrite Forall_app. split; intros [H1 H2]; split; trivial.
    + intros _. inversion H2; assumption.
    + constructor; [apply H2; discriminate|constructor].
Qed.
End Adjacent.

(** ** The segmenter's loop keeps a segmentation *)

Lemma first_snoc (s : Session) (y : datetime) :
  s <> [] -> first (s ++ [y]) = first s.
Proof. destruct s; [congruence|reflexivity]. Qed.

Lemma final_snoc (s : Session) (y : datetime) : final (s ++ [y]) = y.
Proof. apply last_last. Qed.

Lemma segmented_open (sessions : list Session) (s : Session) (y : datetime) :
  segmented (sessions ++ [s]) ->
  minutes MIN_BREAK_MINUTES < y - final s ->
  segmented ((sessions ++ [s]) ++ [[y]]).
Proof.
  intros (Hne & Hin & Hsep) Hgap. repeat split.
  - apply Forall_app; split; [assumption|]. repeat constructor. discriminate.
  - apply Forall_app; split; [assumption|]. repeat constructor.
  - apply (Forall_adjacent_snoc _ _ _ []). split; [assumption|].
    intros _. rewrite last_last. exact Hgap.
Qed.

Lemma segmented_extend (sessions : list Session) (s : Session) (y : datetime) :
  s <> [] ->
  segmented (sessions ++ [s]) ->
  y - final s <= minutes MIN_BREAK_MINUTES ->
  segmented (sessions ++ [s ++ [y]]).
Proof.
  intros Hs (Hne & Hin & Hsep) Hgap.
  apply Forall_app in Hne as [Hne _]. apply Forall_app in Hin as [Hin Hin'].
  apply (Forall_adjacent_snoc _ _ _ []) in Hsep as [Hsep Hlast].
  repeat split.
  - apply Forall_app; split; [assumption|]. repeat constructor.
    destruct s; discriminate.
  - apply Forall_app; split; [assumption|]. repeat constructor.
    apply (Forall_adjacent_snoc _ _ _ 0). split.
    + inversion Hin'; assumption.
    + intros _. exact Hgap.
  - apply (Forall_adjacent_snoc _ _ _ []). split; [assumption|].
    intros Hn. rewrite first_snoc by assumption. apply Hlast, Hn.
Qed.

Lemma segment_loop (l : list datetime) :
  forall (x : datetime) (sessions : list Session) (s : Session),
    s <> [] -> final s = x -> segmented (sessions ++ [s]) ->
    exists sessions' s',
      fold_left segment_step (adjacent (x :: l)) (sessions, s)
      = (sessions', s')
      /\ s' <> []
      /\ segmented (sessions' ++ [s'])
      /\ concat (sessions' ++ [s']) = concat (sessions ++ [s]) ++ l.
Proof.
  induction l as [|y l IH]; intros x sessions s Hs Hx Hseg.
  - exists sessions, s. rewrite app_nil_r.
    split; [reflexivity|]. split; [assumption|]. split; [assumption|reflexivity].
  - rewrite adjacent_cons. simpl fold_left.
    rewrite gt_minutes.
    destruct (MIN_BREAK_MINUTES * 60000000 <? y - x) eqn:E.
    + apply Z.ltb_lt in E.
      destruct (IH y (sessions ++ [s]) [y]) as (ss' & s' & Hf & Hs' & Hseg' & Hc).
      * discriminate.
      * reflexivity.
      * apply segmented_open; [assumption|].
        rewrite Hx. unfold minutes, usec_per_second. lia.
      * exists ss', s'.
        split; [assumption|]. split; [assumption|]. split; [assumption|].
        rewrite Hc, concat_app. simpl. rewrite <- !app_assoc. reflexivity.
    + apply Z.ltb_ge in E.
      destruct (IH y sessions (s ++ [y])) as (ss' & s' & Hf & Hs' & Hseg' & Hc).
      * destruct s; discriminate.
      * apply final_snoc.
      * apply segmented_extend; [assumption..|].
        rewrite Hx. unfold minutes, usec_per_second. lia.
      * exists ss', s'.
        split; [assumption|]. split; [assumption|]. split; [assumption|].
        rewrite Hc, !concat_app. simpl. rewrite !app_nil_r, <- !app_assoc.
        reflexivity.
Qed.

(** What [analyze_sessions] returns on a non-empty list. *)
Lemma analyze_sessions_segmented (commit_times : list datetime) :
  commit_times <> [] ->
  exists sessions,
    analyze_sessions commit_times = Some sessions
    /\ sessions <> []
    /\ segmented sessions
    /\ concat sessions = sorted commit_times.
Proof.
  intros Hne. unfold analyze_sessions.
  assert (Hn : nonempty commit_times = true) by (destruct commit_times; [congruence|reflexivity]).
  rewrite Hn. simpl negb. cbv iota.
  pose proof (sorted_nonempty _ Hn) as Hs.
  destruct (sorted commit_times) as [|x l]; [discriminate|].
  destruct (segment_loop l x [] [x]) as (ss & s & Hf & Hs' & Hseg & Hc).
  - discriminate.
  - reflexivity.
  - repeat split; repeat constructor. discriminate.
  - change (hd 0 (x :: l)) with x. unfold Session, datetime in *. rewrite Hf.
    assert (Hs'' : nonempty s = true) by (destruct s; [congruence|reflexivity]).
    rewrite Hs''. exists (ss ++ [s]).
    split; [reflexivity|]. split; [destruct ss; discriminate|].
    split; [assumption|]. rewrite Hc. reflexivity.
Qed.

(** ** Neighbours of the concatenation: inside a session or across a boundary *)

Lemma adjacent_app (l1 l2 : list datetime) :
  l1 <> [] -> l2 <> [] ->
  adjacent (l1 ++ l2)
  = adjacent l1 ++ (last l1 0, hd 0 l2) :: adjacent l2.
Proof.
  intros H1 H2. induction l1 as [|x l1 IH]; [congruence|].
  destruct l1 as [|y l1].
  - destruct l2; [congruence|reflexivity].
  - change (adjacent ((x :: y :: l1) ++ l2))
      with ((x, y) :: adjacent ((y :: l1) ++ l2)).
    rewrite IH by discriminate. reflexivity.
Qed.

Lemma first_concat (s : Session) (sessions : list Session) :
  s <> [] -> hd 0 (concat (s :: sessions)) = first s.
Proof. destruct s; [congruence|reflexivity]. Qed.

Lemma concat_nonempty (s : Session) (sessions : list Session) :
  s <> [] -> concat (s :: sessions) <> [].
Proof. destruct s; [congruence|discriminate]. Qed.

Lemma adjacent_concat (sessions : list Session) :
  Forall (fun s => s <> []) sessions ->
  forall prev curr,
    In (prev, curr) (adjacent (concat sessions))
    <-> (exists s, In s sessions /\ In (prev, curr) (adjacent s))
        \/ (exists before after,
              In (before, after) (adjacent sessions)
              /\ final before = prev /\ first after = curr).
Proof.
  induction 1 as [|s ss Hs Hss IH]; intros prev curr.
  - simpl. split; [tauto|]. intros [(s & [] & _)|(b & a & [] & _)].
  - destruct ss as [|s' ss].
    + simpl concat. rewrite app_nil_r. split.
      * intros Hin. left. exists s. split; [left; reflexivity|assumption].
      * intros [(s0 & [<-|[]] & Hin)|(b & a & [] & _)]. assumption.
    + change (concat (s :: s' :: ss)) with (s ++ concat (s' :: ss)).
      inversion Hss as [|? ? Hs' _]; subst.
      rewrite adjacent_app by (try assumption; apply concat_nonempty; assumption).
      rewrite first_concat by assumption.
      rewrite in_app_iff. simpl In at 2. rewrite IH.
      rewrite adjacent_cons. split.
      * intros [Hin|[Heq|[(s0 & Hs0 & Hin)|(b & a & Hba & Hb & Ha)]]].
        -- left. exists s. split; [left; reflexivity|assumption].
        -- right. exists s, s'. inversion Heq; subst.
           split; [left; reflexivity|split; reflexivity].
        -- left. exists s0. split; [right; assumption|assumption].
        -- right. exists b, a. split; [right; assumption|split; assumption].
      * intros [(s0 & [<-|Hs0] & Hin)|(b & a & [Heq|Hba] & Hb & Ha)].
        -- left; assumption.
        -- right; right; left. exists s0. split; assumption.
        -- inversion Heq; subst. right; left. reflexivity.
        -- right; right; right. exists b, a. split; [assumption|split; assumption].
Qed.

(** ** Claims about the segmenter *)

(** C1.  For a non-empty list of instants, in any order and with duplicates,
    [analyze_sessions] sorts ascending and partitions: it returns a list of
    non-empty sessions whose concatenation is the sorted input; two
    neighbours of the sorted input are split into consecutive sessions
    exactly when their gap is more than [MIN_BREAK_MINUTES] (5 minutes), and
    stay in one session exactly when it is at most that, a gap of exactly 5
    minutes included. *)
Theorem analyze_sessions_partition (commit_times : list datetime) :
  commit_times <> [] ->
  Sorted Z.le (sorted commit_times)
  /\ Permutation commit_times (sorted commit_times)
  /\ exists sessions,
       analyze_sessions commit_times = Some sessions
       /\ concat sessions = sorted commit_times
       /\ Forall (fun s => s <> []) sessions
       /\ forall prev curr,
            In (prev, curr) (adjacent (sorted commit_times)) ->
            (minutes 5 < curr - prev
             <-> exists before after,
                   In (before, after) (adjacent sessions)
                   /\ final before = prev /\ first after = curr)
            /\ (curr - prev <= minutes 5
                <-> exists s, In s sessions /\ In (prev, curr) (adjacent s)).
Proof.
  intros Hne.
  split; [apply sorted_Sorted|]. split; [apply sorted_Permutation|].
  destruct (analyze_sessions_segmented commit_times Hne)
    as (sessions & Hr & _ & (Hnonempty & Hin & Hsep) & Hc).
  exists sessions. split; [assumption|]. split; [assumption|].
  split; [assumption|]. intros prev curr Hpc.
  rewrite <- Hc in Hpc. apply adjacent_concat in Hpc; [|assumption].
  assert (Hinside : forall s, In s sessions -> In (prev, curr) (adjacent s) ->
                              curr - prev <= minutes 5).
  { intros s Hs Hp. rewrite Forall_forall in Hin. specialize (Hin s Hs).
    unfold within_break in Hin. rewrite Forall_forall in Hin.
    exact (Hin (prev, curr) Hp). }
  assert (Hacross : forall b a, In (b, a) (adjacent sessions) ->
                                minutes 5 < first a - final b).
  { intros b a Hba. unfold separated in Hsep. rewrite Forall_forall in Hsep.
    exact (Hsep (b, a) Hba). }
  split; split.
  - intros Hgap. destruct Hpc as [(s & Hs & Hp)|Hb]; [|assumption].
    specialize (Hinside s Hs Hp). lia.
  - intros (b & a & Hba & <- & <-). apply Hacross, Hba.
  - intros Hgap. destruct Hpc as [Hs|(b & a & Hba & <- & <-)]; [assumption|].
    specialize (Hacross b a Hba). lia.
  - intros (s & Hs & Hp). exact (Hinside s Hs Hp).
Qed.

(** An unsorted input with a duplicate, a gap of exactly five minutes and a
    gap of five minutes and one second. *)
Lemma analyze_sessions_partition_witness :
  let commit_times := [seconds 601; 0; seconds 300; 0] in
  commit_times <> []
  /\ Sorted Z.le (sorted commit_times)
  /\ Permutation commit_times (sorted commit_times)
  /\ exists sessions,
       analyze_sessions commit_times = Some sessions
       /\ concat sessions = sorted commit_times
       /\ Forall (fun s => s <> []) sessions
       /\ forall prev curr,
            In (prev, curr) (adjacent (sorted commit_times)) ->
            (minutes 5 < curr - prev
             <-> exists before after,
                   In (before, after) (adjacent sessions)
                   /\ final before = prev /\ first after = curr)
            /\ (curr - prev <= minutes 5
                <-> exists s, In s sessions /\ In (prev, curr) (adjacent s)).
Proof.
  intros commit_times.
  split; [discriminate|].
  apply (analyze_sessions_partition commit_times). discriminate.
Defined.

(** The run of the witness: the duplicate and the gap of exactly five
    minutes stay in the first session, the next instant opens a second. *)
Example analyze_sessions_example :
  analyze_sessions [seconds 601; 0; seconds 300; 0]
  = Some [[0; 0; seconds 300]; [seconds 601]].
Proof. reflexivity. Qed.


(** A session of the segmenter runs forward in time. *)
Lemma StronglySorted_app_inv (l1 l2 : list datetime) :
  StronglySorted Z.le (l1 ++ l2) ->
  StronglySorted Z.le l1 /\ StronglySorted Z.le l2.
Proof.
  induction l1 as [|x l1 IH]; simpl; intros H.
  - split; [constructor|assumption].
  - inversion H as [|? ? Hs Hall]; subst. destruct (IH Hs) as [H1 H2].
    split; [|assumption]. constructor; [assumption|].
    apply Forall_app in Hall. apply Hall.
Qed.

Lemma StronglySorted_concat (sessions : list Session) (s : Session) :
  StronglySorted Z.le (concat sessions) -> In s sessions ->
  StronglySorted Z.le s.
Proof.
  induction sessions as [|s' ss IH]; simpl; intros Hs Hin; [contradiction|].
  apply StronglySorted_app_inv in Hs as [H1 H2].
  destruct Hin as [<-|Hin]; [assumption|apply IH; assumption].
Qed.

Lemma StronglySorted_span (s : Session) :
  StronglySorted Z.le s -> 0 <= span s.
Proof.
  unfold span, first, final. intros Hs.
  destruct s as [|x l]; [simpl; lia|].
  inversion Hs as [|? ? _ Hall]; subst.
  destruct (exists_last (l := x :: l)) as (l' & y & E); [discriminate|].
  rewrite E, last_last.
  destruct l' as [|x' l']; simpl in E |- *; inversion E; subst; [lia|].
  rewrite Forall_forall in Hall.
  assert (x' <= y) by (apply Hall; apply in_or_app; right; left; reflexivity).
  lia.
Qed.

Lemma analyze_sessions_span (commit_times : list datetime)
    (sessions : list Session) :
  analyze_sessions commit_times = Some sessions ->
  Forall (fun s => 0 <= span s) sessions.
Proof.
  intros Hr.
  assert (Hne : commit_times <> []) by (intros ->; discriminate).
  destruct (analyze_sessions_segmented commit_times Hne)
    as (sessions' & Hr' & _ & _ & Hc).
  rewrite Hr in Hr'. inversion Hr'; subst sessions'.
  apply Forall_forall. intros s Hs. apply StronglySorted_span.
  apply (StronglySorted_concat sessions); [|assumption].
  rewrite Hc. apply Sorted_StronglySorted; [|apply sorted_Sorted].
  intros a b c; apply Z.le_trans.
Qed.

(** C7, as the source has it.  On an empty input [analyze_sessions] returns
    [None], no sequence at all, and on no input does it return an empty
    sequence of sessions; [None] is falsy, so an iteration past the first run
    takes the branch that reports that no commit data was found and leaves
    the state as it was. *)
Theorem analyze_sessions_empty (print_func : bool) (now : datetime)
    (st : State) :
  analyze_sessions [] = None
  /\ truthy (analyze_sessions []) = false
  /\ (forall commit_times, analyze_sessions commit_times <> Some [])
  /\ tick print_func now [] (clear_first_run st)
     = (clear_first_run st,
        Stdout "No commit data found."
          :: printed print_func "No commit data found." ++ [Popup no_data]).
Proof.
  split; [reflexivity|]. split; [reflexivity|]. split; [|reflexivity].
  intros commit_times Hr.
  destruct commit_times as [|c l]; [discriminate|].
  destruct (analyze_sessions_segmented (c :: l)) as (ss & Hr' & Hne & _);
    [discriminate|].
  rewrite Hr in Hr'. inversion Hr'; subst. congruence.
Qed.

(** C7, as stated: the result on the empty input is not the empty sequence
    of sessions. *)
Lemma analyze_sessions_empty_not_nil : analyze_sessions [] <> Some [].
Proof. discriminate. Qed.

(** ** Late-night commits *)

Lemma hour_range (c : datetime) : 0 <= hour c < 24.
Proof. unfold hour. apply Z.mod_pos_bound. lia. Qed.

Lemma hour_at_time (ordinal h m s : Z) :
  0 <= h < 24 -> 0 <= m < 60 -> 0 <= s < 60 ->
  hour (at_time ordinal h m s) = h.
Proof.
  intros Hh Hm Hs. unfold hour, at_time, usec_per_day, usec_per_hour,
    usec_per_second.
  assert (E : ((ordinal - 1) * (86400 * 1000000)
               + ((h * 60 + m) * 60 + s) * 1000000) / (3600 * 1000000)
              = (ordinal - 1) * 24 + h).
  { symmetry. apply Z.div_unique with (r := (m * 60 + s) * 1000000); lia. }
  rewrite E. symmetry. apply Z.mod_unique with (q := ordinal - 1); lia.
Qed.

(** C8.  A commit instant counts as late-night exactly when its hour lies in
    [22, 24) or in [0, 6); the late-night commits are the instants of the
    sessions with such an hour; on any day 23:30 and 05:59 are late-night and
    07:00 is not. *)
Theorem late_night_range (c : datetime) (sessions : list Session)
    (ordinal : Z) :
  (is_late_night c = true
   <-> 22 <= hour c < 24 \/ 0 <= hour c < 6)
  /\ (In c (late_night_commits sessions)
      <-> (exists s, In s sessions /\ In c s)
          /\ (22 <= hour c < 24 \/ 0 <= hour c < 6))
  /\ is_late_night (at_time ordinal 23 30 0) = true
  /\ is_late_night (at_time ordinal 5 59 0) = true
  /\ is_late_night (at_time ordinal 7 0 0) = false.
Proof.
  assert (Hiff : forall c, is_late_night c = true
                           <-> 22 <= hour c < 24 \/ 0 <= hour c < 6).
  { intros c'. unfold is_late_night, LATE_NIGHT_START, LATE_NIGHT_END.
    pose proof (hour_range c'). rewrite orb_true_iff, Z.leb_le, Z.ltb_lt. lia. }
  split; [apply Hiff|]. split.
  - unfold late_night_commits. rewrite filter_In, in_concat, Hiff.
    split; intros [(s & H1 & H2) H3]; (split; [exists s; tauto|assumption]).
  - unfold is_late_night. rewrite !hour_at_time by lia. repeat split.
Qed.

(** ** No-break sessions *)

Lemma within_break_under_an_hour (s : Session) :
  within_break s ->
  forallb (fun '(prev, curr) =>
             lt (total_seconds (curr - prev)%Z / inject_Z 60)%Q (inject_Z 60))
          (adjacent s) = true.
Proof.
  unfold within_break. intros H. apply forallb_forall. intros [prev curr] Hin.
  rewrite Forall_forall in H. specialize (H _ Hin). simpl in H.
  rewrite lt_minutes. apply Z.ltb_lt.
  unfold minutes, MIN_BREAK_MINUTES, usec_per_second in H. lia.
Qed.

(** C10.  In every session that [analyze_sessions] returns, neighbours are
    at most 5 minutes apart, so the test that every gap is under 60 minutes
    always passes: the no-break sessions are exactly the sessions spanning
    more than 2 hours, and every long session (more than 3 hours) is one of
    them. *)
Theorem no_break_sessions_by_span (commit_times : list datetime)
    (sessions : list Session) :
  analyze_sessions commit_times = Some sessions ->
  Forall (fun s => Forall (fun '(prev, curr) => curr - prev <= minutes 5)
                          (adjacent s)) sessions
  /\ Forall (fun s =>
               forallb (fun '(prev, curr) =>
                          lt (total_seconds (curr - prev)%Z / inject_Z 60)%Q
                             (inject_Z 60))
                       (adjacent s) = true) sessions
  /\ no_break_sessions sessions = filter (fun s => hours 2 <? span s) sessions
  /\ (forall s, In s (long_sessions sessions)
                <-> In s sessions /\ hours 3 < span s)
  /\ incl (long_sessions sessions) (no_break_sessions sessions).
Proof.
  intros Hr.
  assert (Hne : commit_times <> []) by (intros ->; discriminate).
  destruct (analyze_sessions_segmented commit_times Hne)
    as (sessions' & Hr' & _ & (_ & Hin & _) & _).
  rewrite Hr in Hr'. inversion Hr'; subst sessions'. clear Hr'.
  assert (Hhour : Forall (fun s =>
            forallb (fun '(prev, curr) =>
                       lt (total_seconds (curr - prev)%Z / inject_Z 60)%Q
                          (inject_Z 60))
                    (adjacent s) = true) sessions).
  { eapply Forall_impl; [|exact Hin]. apply within_break_under_an_hour. }
  assert (Hnb : forall s, In s sessions ->
                          is_no_break_session s = (hours 2 <? span s)).
  { intros s Hs. unfold is_no_break_session.
    pose proof (proj1 (Forall_forall _ _) Hhour s Hs) as Hb.
    replace (forallb _ (adjacent s)) with true by (symmetry; exact Hb).
    rewrite gt_hours. reflexivity. }
  assert (Hlong : forall s, is_long_session s = (hours 3 <? span s)).
  { intros s. unfold is_long_session. rewrite gt_hours. reflexivity. }
  split; [exact Hin|]. split; [exact Hhour|].
  split; [apply filter_ext_in; exact Hnb|]. split.
  - intros s. unfold long_sessions. rewrite filter_In, Hlong, Z.ltb_lt.
    reflexivity.
  - intros s. unfold long_sessions, no_break_sessions.
    rewrite !filter_In. intros [Hs Hl]. split; [assumption|].
    rewrite (Hnb s Hs). rewrite Hlong in Hl.
    apply Z.ltb_lt in Hl. apply Z.ltb_lt.
    unfold hours, usec_per_hour, usec_per_second in *. lia.
Qed.

(** One session of two and a half hours, with a commit every five minutes. *)
Lemma no_break_sessions_by_span_witness :
  let commit_times := map (fun i => minutes (5 * Z.of_nat i)) (seq 0 31) in
  let sessions := [commit_times] in
  analyze_sessions commit_times = Some sessions
  /\ Forall (fun s => Forall (fun '(prev, curr) => curr - prev <= minutes 5)
                             (adjacent s)) sessions
  /\ Forall (fun s =>
               forallb (fun '(prev, curr) =>
                          lt (total_seconds (curr - prev)%Z / inject_Z 60)%Q
                             (inject_Z 60))
                       (adjacent s) = true) sessions
  /\ no_break_sessions sessions = filter (fun s => hours 2 <? span s) sessions
  /\ (forall s, In s (long_sessions sessions)
                <-> In s sessions /\ hours 3 < span s)
  /\ incl (long_sessions sessions) (no_break_sessions sessions).
Proof.
  intros commit_times sessions.
  split; [reflexivity|].
  apply (no_break_sessions_by_span commit_times sessions). reflexivity.
Defined.

(** ** One iteration: which branch, which notifications *)

Lemma popups_app (e1 e2 : list Event) :
  popups (e1 ++ e2) = popups e1 ++ popups e2.
Proof. unfold popups. apply flat_map_app. Qed.

Lemma popups_printed (print_func : bool) (text : string) :
  popups (printed print_func text) = [].
Proof. destruct print_func; reflexivity. Qed.

Lemma popups_show (notifications : list Notification) :
  popups (show notifications) = notifications.
Proof.
  induction notifications as [|n l IH]; [reflexivity|].
  simpl. f_equal. exact IH.
Qed.

Lemma truthy_analyze_sessions (commit_times : list datetime) :
  truthy (analyze_sessions commit_times) = false <-> commit_times = [].
Proof.
  split; [|intros ->; reflexivity].
  destruct commit_times as [|c l]; [reflexivity|]. intros Ht.
  destruct (analyze_sessions_segmented (c :: l)) as (ss & Hr & Hne & _);
    [discriminate|].
  rewrite Hr in Ht. destruct ss; [congruence|discriminate].
Qed.

Lemma tick_rules (print_func : bool) (now : datetime)
    (commit_times : list datetime) (sessions : list Session) (st : State) :
  first_run st = false ->
  analyze_sessions commit_times = Some sessions ->
  tick print_func now commit_times st
  = (fst (evaluate_rules now sessions st),
     printed print_func (get_summary_text sessions)
       ++ show (snd (evaluate_rules now sessions st))).
Proof.
  intros Hf Hr.
  assert (Hne : commit_times <> []) by (intros ->; discriminate).
  destruct (analyze_sessions_segmented commit_times Hne)
    as (ss & Hr' & Hss & _).
  rewrite Hr in Hr'. inversion Hr'; subst ss. clear Hr'.
  unfold tick. rewrite Hf, Hr.
  destruct commit_times as [|c l]; [congruence|].
  destruct sessions as [|s ss]; [congruence|].
  simpl nonempty. cbv iota.
  destruct (evaluate_rules now (s :: ss) st) as [st' ns]. reflexivity.
Qed.

Lemma tick_branch (print_func : bool) (now : datetime)
    (commit_times : list datetime) (st : State) :
  Branch print_func now commit_times st.
Proof.
  destruct (first_run st) eqn:Hf.
  - apply FirstRun; [assumption| |]; unfold tick; rewrite Hf;
      [reflexivity|].
    simpl snd. rewrite popups_app. destruct commit_times; reflexivity.
  - destruct commit_times as [|c l].
    + apply NoData; try assumption; try reflexivity; unfold tick; rewrite Hf;
        simpl; [reflexivity|].
      rewrite popups_app, popups_printed. reflexivity.
    + destruct (analyze_sessions_segmented (c :: l)) as (ss & Hr & _);
        [discriminate|].
      pose proof (tick_rules print_func now (c :: l) ss st Hf Hr) as Ht.
      apply (Rules _ _ _ _ ss); try assumption.
      rewrite Ht. simpl snd.
      rewrite popups_app, popups_printed, popups_show. reflexivity.
Qed.

(** C2, as the source has it.  Segmentation yields no sessions exactly on
    the empty commit history.  An iteration on it shows one notification and
    nothing else: on the first run the notification that monitoring started,
    and the state changes by the first-run flag being cleared; on any later
    run the notification that no commit data was found, and the state is
    unchanged.  The first-run test comes before the test for sessions. *)
Theorem tick_without_sessions (print_func : bool) (now : datetime)
    (st : State) :
  (forall commit_times,
     truthy (analyze_sessions commit_times) = false <-> commit_times = [])
  /\ popups (snd (tick print_func now [] st))
     = [if first_run st then started else no_data]
  /\ fst (tick print_func now [] st)
     = (if first_run st then clear_first_run st else st).
Proof.
  split; [apply truthy_analyze_sessions|].
  unfold tick. destruct (first_run st); simpl.
  - split; reflexivity.
  - rewrite popups_app, popups_printed. split; reflexivity.
Qed.

(** C2, as stated, fails on the first iteration: with no commits it shows
    that monitoring started, not that there is no data, and it changes the
    state. *)
Lemma first_tick_without_sessions :
  truthy (analyze_sessions []) = false
  /\ popups (snd (tick false 0 [] initial)) = [started]
  /\ popups (snd (tick false 0 [] initial)) <> [no_data]
  /\ fst (tick false 0 [] initial) <> initial.
Proof.
  split; [reflexivity|]. split; [reflexivity|]. split; discriminate.
Qed.

(** ** Rolling minutes *)

Lemma differs_false (last : option Z) (v : Z) :
  differs last v = false <-> last = Some v.
Proof.
  destruct last as [d|]; simpl.
  - rewrite negb_false_iff, Z.eqb_eq. split; congruence.
  - split; discriminate.
Qed.

Lemma differs_true (last : option Z) (v : Z) :
  differs last v = true <-> last <> Some v.
Proof.
  rewrite <- differs_false. destruct (differs last v); split; congruence.
Qed.

Lemma accumulate_sums (today week : Z) (sessions : list Session) :
  forall daily weekly,
    fold_left (accumulate today week) sessions (daily, weekly)
    = (daily + sum (map session_minutes
                        (filter (fun s => date (first s) =? today) sessions)),
       weekly + sum (map session_minutes
                         (filter (fun s => isocalendar_week (first s) =? week)
                                 sessions))).
Proof.
  induction sessions as [|s ss IH]; intros daily weekly; simpl.
  - f_equal; lia.
  - rewrite IH.
    destruct (date (first s) =? today),
             (isocalendar_week (first s) =? week); simpl; f_equal; lia.
Qed.

Lemma session_minutes_floor (s : Session) :
  0 <= span s ->
  session_minutes s = Qfloor (total_seconds (span s) / inject_Z 60)%Q.
Proof.
  intros Hs. unfold session_minutes. apply int_floor.
  unfold total_seconds, Qdiv, Qmult, Qinv, inject_Z. simpl. lia.
Qed.

Lemma session_minutes_nonneg (s : Session) :
  0 <= span s -> 0 <= session_minutes s.
Proof.
  intros Hs. unfold session_minutes. rewrite int_minutes by assumption.
  apply Z.div_pos; lia.
Qed.

Lemma sum_minutes_floor (p : Session -> bool) (sessions : list Session) :
  Forall (fun s => 0 <= span s) sessions ->
  sum (map session_minutes (filter p sessions))
  = sum (map (fun s => Qfloor (total_seconds (span s) / inject_Z 60)%Q)
             (filter p sessions))
  /\ 0 <= sum (map session_minutes (filter p sessions)).
Proof.
  unfold sum.
  induction 1 as [|s ss Hs _ [IH1 IH2]]; cbn [filter map fold_right];
    [split; [reflexivity|lia]|].
  destruct (p s); cbn [map fold_right]; [|split; assumption].
  rewrite (session_minutes_floor s Hs) at 1.
  pose proof (session_minutes_nonneg s Hs). split; [congruence|lia].
Qed.

(** The minutes after the rules were evaluated on what [analyze_sessions]
    returned. *)
Lemma evaluate_rules_minutes (now : datetime) (commit_times : list datetime)
    (sessions : list Session) (st : State) :
  analyze_sessions commit_times = Some sessions ->
  let st' := fst (evaluate_rules now sessions st) in
  daily_coding_minutes st'
  = (if differs (last_day st) (date now) then 0 else daily_coding_minutes st)
    + daily_minutes_delta (date now) sessions
  /\ weekly_coding_minutes st'
     = (if differs (last_week st) (isocalendar_week now) then 0
        else weekly_coding_minutes st)
       + minutes_of_week_number (isocalendar_week now) sessions
  /\ 0 <= daily_minutes_delta (date now) sessions
  /\ 0 <= minutes_of_week_number (isocalendar_week now) sessions.
Proof.
  intros Hr. pose proof (analyze_sessions_span _ _ Hr) as Hspan.
  unfold evaluate_rules, collect_notifications, add_coding_minutes. simpl.
  rewrite accumulate_sums. simpl.
  destruct (sum_minutes_floor (fun s => date (first s) =? date now)
                              sessions Hspan) as [Hd Hd0].
  destruct (sum_minutes_floor
              (fun s => isocalendar_week (first s) =? isocalendar_week now)
              sessions Hspan) as [Hw Hw0].
  unfold daily_minutes_delta, minutes_of_week_number.
  rewrite <- Hd, <- Hw. repeat split; assumption.
Qed.

(** ** Iterations one after another *)

Lemma ticks_cons (print_func : bool) (now : datetime)
    (commit_times : list datetime) (inputs : list (datetime * list datetime))
    (st : State) :
  ticks print_func ((now, commit_times) :: inputs) st
  = (fst (ticks print_func inputs (fst (tick print_func now commit_times st))),
     snd (tick print_func now commit_times st)
       :: snd (ticks print_func inputs
                     (fst (tick print_func now commit_times st)))).
Proof.
  simpl. destruct (tick print_func now commit_times st) as [st' events].
  simpl. destruct (ticks print_func inputs st'). reflexivity.
Qed.

Lemma evaluate_rules_last_day (now : datetime) (sessions : list Session)
    (st : State) :
  last_day (fst (evaluate_rules now sessions st)) = Some (date now)
  /\ last_week (fst (evaluate_rules now sessions st))
     = Some (isocalendar_week now)
  /\ first_run (fst (evaluate_rules now sessions st)) = first_run st.
Proof.
  simpl. split; [|split; [|reflexivity]].
  - destruct (differs (last_day st) (date now)) eqn:E; [reflexivity|].
    apply differs_false, E.
  - destruct (differs (last_week st) (isocalendar_week now)) eqn:E;
      [reflexivity|].
    apply differs_false, E.
Qed.

Lemma ticks_within_day (print_func : bool) (commit_times : list datetime)
    (sessions : list Session) (today : Z) (nows : list datetime) :
  analyze_sessions commit_times = Some sessions ->
  Forall (fun now => date now = today) nows ->
  forall st,
    first_run st = false -> last_day st = Some today ->
    daily_coding_minutes
      (fst (ticks print_func (map (fun now => (now, commit_times)) nows) st))
    = daily_coding_minutes st
      + Z.of_nat (length nows) * daily_minutes_delta today sessions.
Proof.
  intros Hr. induction 1 as [|now nows Hnow _ IH]; intros st Hf Hd.
  - simpl. lia.
  - cbn [map]. rewrite ticks_cons, (tick_rules _ _ _ _ _ Hf Hr). cbn [fst].
    destruct (evaluate_rules_last_day now sessions st) as (Hd' & _ & Hf').
    destruct (evaluate_rules_minutes now _ _ st Hr) as (Hm & _).
    rewrite IH by congruence. rewrite Hm, Hnow.
    replace (differs (last_day st) today) with false
      by (symmetry; apply differs_false, Hd).
    cbn [length]. lia.
Qed.





(** ** The notifications of a rule evaluation *)

Lemma In_append_if (c : bool) (n x : Notification) (l : list Notification) :
  In x (append_if c n l) <-> In x l \/ (c = true /\ x = n).
Proof.
  unfold append_if. destruct c.
  - rewrite in_app_iff. simpl. intuition congruence.
  - intuition congruence.
Qed.

Lemma count_append_if (c : bool) (n x : Notification)
    (l : list Notification) :
  count_occ Notification_eq_dec (append_if c n l) x
  = (count_occ Notification_eq_dec l x
     + if c then if Notification_eq_dec n x then 1 else 0 else 0)%nat.
Proof.
  unfold append_if. destruct c; [|lia].
  rewrite count_occ_app. simpl. reflexivity.
Qed.

Lemma collect_In (x : Notification) (now : datetime)
    (sessions : list Session) (st : State) :
  In x (snd (collect_notifications now sessions st))
  <-> (nonempty (long_sessions sessions) = true
       /\ x = long_alert (length (long_sessions sessions)))
      \/ (nonempty (no_break_sessions sessions) = true /\ x = break_alert)
      \/ (nonempty (late_night_commits sessions) = true /\ x = night_alert)
      \/ ((8 * 60 <? daily_coding_minutes st) = true /\ x = daily_alert)
      \/ ((40 * 60 <? weekly_coding_minutes st) = true /\ x = weekly_alert)
      \/ (due Hydration now st = true /\ x = hydration_reminder)
      \/ (due Activity now st = true /\ x = activity_reminder)
      \/ (due Ergonomics now st = true /\ x = ergonomics_tip)
      \/ (due Mood now st = true /\ x = mood_check)
      \/ (positive sessions st = true /\ x = great_job).
Proof.
  unfold collect_notifications. cbn [snd].
  rewrite !In_append_if. cbn [In]. unfold due, positive. cbn [interval last_reminder_time].
  tauto.
Qed.

Ltac other_title :=
  match goal with
  | H : @eq Notification _ _ |- _ =>
      solve [unfold reminder, long_alert, break_alert, night_alert,
               daily_alert, weekly_alert, hydration_reminder,
               activity_reminder, ergonomics_tip, mood_check, great_job,
               started, no_data in H;
             discriminate H]
  end.

Lemma due_iff (k : Reminder) (now : datetime) (st : State) :
  due k now st = true
  <-> last_reminder_time k st = None
      \/ exists t, last_reminder_time k st = Some t
                   /\ minutes (interval k) < now - t.
Proof.
  unfold due, minutes_since. destruct (last_reminder_time k st) as [t|].
  - rewrite gt_minutes, Z.ltb_lt. unfold minutes, usec_per_second. split.
    + intros H. right. exists t. split; [reflexivity|lia].
    + intros [H|(t' & H & Hlt)]; [discriminate|]. inversion H; subst. lia.
  - split; [intros _; left; reflexivity|intros _].
    destruct k; reflexivity.
Qed.

Lemma reminder_In (k : Reminder) (now : datetime) (sessions : list Session)
    (st : State) :
  In (reminder k) (snd (collect_notifications now sessions st))
  <-> due k now st = true.
Proof.
  rewrite collect_In. split.
  - intros H. decompose [or and] H; clear H; destruct k;
      first [assumption | other_title].
  - intros H. destruct k; cbn [reminder]; tauto.
Qed.

Lemma reminder_time_after (k : Reminder) (now : datetime)
    (sessions : list Session) (st : State) :
  last_reminder_time k (fst (evaluate_rules now sessions st))
  = if due k now st then Some now else last_reminder_time k st.
Proof. destruct k; reflexivity. Qed.

Lemma evaluate_rules_reminder (k : Reminder) (now : datetime)
    (sessions : list Session) (st : State) :
  In (reminder k) (snd (evaluate_rules now sessions st))
  <-> due k now st = true.
Proof.
  unfold evaluate_rules. rewrite reminder_In.
  destruct k; reflexivity.
Qed.

(** ** Periodic reminders *)

Lemma tick_reminder (k : Reminder) (print_func : bool) (now : datetime)
    (commit_times : list datetime) (st : State) :
  let fires :=
    negb (first_run st) && nonempty commit_times && due k now st in
  (In (reminder k) (popups (snd (tick print_func now commit_times st)))
   <-> fires = true)
  /\ last_reminder_time k (fst (tick print_func now commit_times st))
     = if fires then Some now else last_reminder_time k st.
Proof.
  intros fires. unfold fires.
  destruct (tick_branch print_func now commit_times st)
    as [Hf Hst Hp|Hf Hc Hst Hp|sessions Hf Hr Ht Hp]; rewrite Hp.
  - rewrite Hf, Hst. cbn [negb andb]. split; [|destruct k; reflexivity].
    split; [|discriminate]. intros [H|[]]. destruct k; other_title.
  - rewrite Hf, Hst, Hc. cbn [negb nonempty andb]. split; [|reflexivity].
    split; [|discriminate]. intros [H|[]]. destruct k; other_title.
  - rewrite Ht. cbn [fst]. rewrite Hf, evaluate_rules_reminder,
      reminder_time_after.
    assert (Hne : nonempty commit_times = true)
      by (destruct commit_times; [discriminate|reflexivity]).
    rewrite Hne. cbn [negb andb]. split; reflexivity.
Qed.

Lemma reminder_quiet (k : Reminder) (print_func : bool) (t0 : datetime)
    (inputs : list (datetime * list datetime)) :
  Forall (fun '(later, _) => later - t0 <= minutes (interval k)) inputs ->
  forall st,
    last_reminder_time k st = Some t0 ->
    Forall (fun events => ~ In (reminder k) (popups events))
           (snd (ticks print_func inputs st))
    /\ last_reminder_time k (fst (ticks print_func inputs st)) = Some t0.
Proof.
  induction 1 as [|[later commit_times] inputs Hlater _ IH]; intros st Hlast.
  - split; [constructor|exact Hlast].
  - rewrite ticks_cons. cbn [fst snd].
    destruct (tick_reminder k print_func later commit_times st) as [Hin Hst].
    assert (Hdue : due k later st = false).
    { destruct (due k later st) eqn:E; [|reflexivity].
      apply due_iff in E. destruct E as [E|(t & E & Hlt)]; [congruence|].
      rewrite Hlast in E. inversion E; subst. lia. }
    rewrite Hdue, andb_false_r in Hin, Hst.
    destruct (IH _ (eq_trans Hst Hlast)) as [IH1 IH2].
    split; [|exact IH2]. constructor; [|exact IH1].
    rewrite Hin. discriminate.
Qed.

(** C4.  In an iteration that evaluates the rules, each periodic reminder
    (hydration 60, activity 90, ergonomics 120, mood 180 minutes) is shown
    exactly when the time it last fired was never set or lies more than its
    interval before [now]; when shown, that time becomes [now], otherwise it
    is kept; and after it was shown, it is not shown again in any iteration
    whose [now] is at most the interval later. *)
Theorem reminder_debounce (k : Reminder) (print_func : bool) (now : datetime)
    (commit_times : list datetime) (st : State)
    (inputs : list (datetime * list datetime)) :
  first_run st = false ->
  commit_times <> [] ->
  Forall (fun '(later, _) => later - now <= minutes (interval k)) inputs ->
  let shown := popups (snd (tick print_func now commit_times st)) in
  let st' := fst (tick print_func now commit_times st) in
  (interval Hydration = 60 /\ interval Activity = 90
   /\ interval Ergonomics = 120 /\ interval Mood = 180)
  /\ (In (reminder k) shown
      <-> last_reminder_time k st = None
          \/ exists t, last_reminder_time k st = Some t
                       /\ minutes (interval k) < now - t)
  /\ (In (reminder k) shown -> last_reminder_time k st' = Some now)
  /\ (~ In (reminder k) shown
      -> last_reminder_time k st' = last_reminder_time k st)
  /\ (In (reminder k) shown ->
      Forall (fun events => ~ In (reminder k) (popups events))
             (snd (ticks print_func inputs st'))).
Proof.
  intros Hf Hne Hinputs shown st'.
  destruct (tick_reminder k print_func now commit_times st) as [Hin Hst].
  fold shown in Hin. fold st' in Hst.
  assert (Hn : nonempty commit_times = true)
    by (destruct commit_times; [congruence|reflexivity]).
  rewrite Hf, Hn in Hin, Hst. cbn [negb andb] in Hin, Hst.
  split; [repeat split|]. split; [rewrite Hin; apply due_iff|].
  split; [|split].
  - intros H. apply Hin in H. rewrite H in Hst. exact Hst.
  - intros H. destruct (due k now st); [|exact Hst].
    exfalso. apply H, Hin. reflexivity.
  - intros H. apply Hin in H. rewrite H in Hst.
    apply (reminder_quiet k print_func now inputs Hinputs st' Hst).
Qed.

(** Hydration on day 739923: due at 14:00 as it never fired, then quiet at
    14:30 and at 15:00, sixty minutes later to the second. *)
Lemma reminder_debounce_witness :
  let today := 739923 in
  let commit_times := [at_time today 9 0 0] in
  let st := clear_first_run initial in
  let now := at_time today 14 0 0 in
  let inputs :=
    [(at_time today 14 30 0, commit_times);
     (at_time today 15 0 0, commit_times)] in
  let shown := popups (snd (tick false now commit_times st)) in
  let st' := fst (tick false now commit_times st) in
  first_run st = false
  /\ commit_times <> []
  /\ Forall (fun '(later, _) => later - now <= minutes (interval Hydration))
            inputs
  /\ In (reminder Hydration) shown
  /\ last_reminder_time Hydration st' = Some now
  /\ Forall (fun events => ~ In (reminder Hydration) (popups events))
            (snd (ticks false inputs st')).
Proof.
  intros today commit_times st now inputs shown st'.
  assert (Hf : first_run st = false) by reflexivity.
  assert (Hne : commit_times <> []) by discriminate.
  assert (Hall : Forall (fun '(later, _) =>
                           later - now <= minutes (interval Hydration))
                        inputs).
  { repeat constructor; vm_compute; discriminate. }
  pose proof (reminder_debounce Hydration false now commit_times st inputs
                Hf Hne Hall) as H.
  cbv zeta in H. destruct H as (_ & Hiff & Hset & _ & Hquiet).
  assert (Hshown : In (reminder Hydration) shown)
    by (apply Hiff; left; reflexivity).
  split; [exact Hf|]. split; [exact Hne|]. split; [exact Hall|].
  split; [exact Hshown|]. split; [exact (Hset Hshown)|exact (Hquiet Hshown)].
Defined.

(** One second past the hour the hydration reminder is shown again. *)
Example hydration_again :
  let today := 739923 in
  let commit_times := [at_time today 9 0 0] in
  let st' :=
    fst (tick false (at_time today 14 0 0) commit_times
              (clear_first_run initial)) in
  popups (snd (tick false (at_time today 15 0 0) commit_times st')) = []
  /\ popups (snd (tick false (at_time today 15 0 1) commit_times st'))
     = [hydration_reminder].
Proof. vm_compute. split; reflexivity. Qed.

(** ** Positive reinforcement *)

Lemma great_job_In (now : datetime) (sessions : list Session) (st : State) :
  In great_job (snd (collect_notifications now sessions st))
  <-> positive sessions st = true.
Proof.
  rewrite collect_In. split.
  - intros H. decompose [or and] H; clear H; first [assumption | other_title].
  - tauto.
Qed.

Lemma alert_In (now : datetime) (sessions : list Session) (st : State) :
  (exists n, is_alert n
             /\ In n (snd (collect_notifications now sessions st)))
  <-> any_alert sessions st = true.
Proof.
  unfold any_alert. rewrite !orb_true_iff. split.
  - intros (n & Ha & Hin). apply collect_In in Hin. unfold is_alert in Ha.
    decompose [or and ex] Ha; clear Ha; decompose [or and] Hin; clear Hin;
      subst; first [tauto | other_title].
  - intros H. decompose [or] H; clear H.
    + exists (long_alert (length (long_sessions sessions))).
      split; [left; eexists; reflexivity|]. apply collect_In. tauto.
    + exists break_alert. split; [unfold is_alert; tauto|].
      apply collect_In. tauto.
    + exists night_alert. split; [unfold is_alert; tauto|].
      apply collect_In. tauto.
    + exists daily_alert. split; [unfold is_alert; tauto|].
      apply collect_In. tauto.
    + exists weekly_alert. split; [unfold is_alert; tauto|].
      apply collect_In. tauto.
Qed.

Lemma count_append_if_other (c : bool) (n x : Notification)
    (l : list Notification) :
  n <> x ->
  count_occ Notification_eq_dec (append_if c n l) x
  = count_occ Notification_eq_dec l x.
Proof.
  intros Hn. rewrite count_append_if.
  destruct c; [|lia]. destruct (Notification_eq_dec n x); [contradiction|lia].
Qed.

Lemma great_job_count (now : datetime) (sessions : list Session)
    (st : State) :
  count_occ Notification_eq_dec
            (snd (collect_notifications now sessions st)) great_job
  = if positive sessions st then 1%nat else 0%nat.
Proof.
  unfold collect_notifications. cbn [snd].
  rewrite count_append_if. fold (positive sessions st).
  rewrite !count_append_if_other by (intros H; other_title).
  destruct (positive sessions st); [|reflexivity].
  destruct (Notification_eq_dec great_job great_job); [reflexivity|congruence].
Qed.

Lemma evaluate_rules_great_job_count (now : datetime)
    (sessions : list Session) (st : State) :
  count_occ Notification_eq_dec (snd (evaluate_rules now sessions st))
            great_job
  = if positive sessions
         (add_coding_minutes now sessions (roll_boundaries now st))
    then 1%nat else 0%nat.
Proof. unfold evaluate_rules. apply great_job_count. Qed.

Lemma times_shown_cons (n : Notification) (events : list Event)
    (rest : list (list Event)) :
  times_shown n (events :: rest)
  = (count_occ Notification_eq_dec (popups events) n + times_shown n rest)%nat.
Proof.
  unfold times_shown. cbn [concat]. rewrite popups_app, count_occ_app.
  reflexivity.
Qed.

(** The state in which the notifications are collected. *)
Lemma positive_after_roll (now : datetime) (sessions : list Session)
    (st : State) :
  let st2 := add_coding_minutes now sessions (roll_boundaries now st) in
  positive_reinforcement_given st2
  = (if differs (last_day st) (date now) then false
     else positive_reinforcement_given st)
  /\ positive_reinforcement_given (fst (evaluate_rules now sessions st))
     = (if positive sessions st2 then true
        else positive_reinforcement_given st2).
Proof. split; reflexivity. Qed.

Lemma great_job_once (print_func : bool) (today : Z)
    (inputs : list (datetime * list datetime)) :
  Forall (fun '(now, _) => date now = today) inputs ->
  forall st,
    (times_shown great_job (snd (ticks print_func inputs st)) <= 1)%nat
    /\ (last_day st = Some today ->
        positive_reinforcement_given st = true ->
        times_shown great_job (snd (ticks print_func inputs st)) = 0%nat).
Proof.
  induction 1 as [|[now commit_times] inputs Hnow _ IH]; intros st.
  - split; [cbn; lia|reflexivity].
  - rewrite ticks_cons. cbn [snd]. rewrite times_shown_cons.
    destruct (tick_branch print_func now commit_times st)
      as [Hf Hst Hp|Hf Hc Hst Hp|sessions Hf Hr Ht Hp]; rewrite Hp.
    + rewrite Hst. destruct (IH (clear_first_run st)) as [IH1 IH2].
      change (count_occ Notification_eq_dec [started] great_job) with 0%nat.
      split; [exact IH1|]. intros Hd Hg. apply IH2; assumption.
    + rewrite Hst. destruct (IH st) as [IH1 IH2].
      change (count_occ Notification_eq_dec [no_data] great_job) with 0%nat.
      split; [exact IH1|]. intros Hd Hg. apply IH2; assumption.
    + rewrite Ht. cbn [fst]. rewrite !evaluate_rules_great_job_count.
      destruct (IH (fst (evaluate_rules now sessions st))) as [IH1 IH2].
      destruct (evaluate_rules_last_day now sessions st) as (Hd' & _).
      rewrite Hnow in Hd'.
      destruct (positive_after_roll now sessions st) as [Hg2 Hg'].
      cbv zeta in Hg2, Hg'.
      destruct (positive sessions
                  (add_coding_minutes now sessions (roll_boundaries now st)))
        eqn:Hpos.
      * rewrite (IH2 Hd' Hg'). split; [lia|]. intros Hd Hg.
        exfalso. unfold positive in Hpos. rewrite Hg2, Hnow in Hpos.
        replace (differs (last_day st) today) with false in Hpos
          by (symmetry; apply differs_false, Hd).
        rewrite Hg, andb_false_r in Hpos. discriminate.
      * split; [exact IH1|]. intros Hd Hg. apply (IH2 Hd').
        rewrite Hg', Hg2, Hnow.
        replace (differs (last_day st) today) with false
          by (symmetry; apply differs_false, Hd).
        exact Hg.
Qed.

Lemma positive_iff (now : datetime) (sessions : list Session) (st : State) :
  let st2 := add_coding_minutes now sessions (roll_boundaries now st) in
  positive sessions st2 = true
  <-> (forall n, In n (snd (evaluate_rules now sessions st)) -> ~ is_alert n)
      /\ (positive_reinforcement_given st = false
          \/ last_day st <> Some (date now)).
Proof.
  intros st2. unfold positive. rewrite andb_true_iff, !negb_true_iff.
  destruct (positive_after_roll now sessions st) as [Hg _]. fold st2 in Hg.
  rewrite Hg. clear Hg.
  assert (Halert : any_alert sessions st2 = false
                   <-> forall n, In n (snd (evaluate_rules now sessions st))
                                 -> ~ is_alert n).
  { unfold evaluate_rules. fold st2. split.
    - intros Hno n Hin Ha.
      assert (any_alert sessions st2 = true)
        by (apply (alert_In now); exists n; split; assumption).
      congruence.
    - intros Hno. destruct (any_alert sessions st2) eqn:E; [|reflexivity].
      apply (alert_In now) in E. destruct E as (n & Ha & Hin).
      exfalso. exact (Hno n Hin Ha). }
  rewrite Halert, <- differs_true.
  destruct (differs (last_day st) (date now)),
           (positive_reinforcement_given st); intuition congruence.
Qed.

(** C5.  The positive reinforcement is shown in an iteration exactly when
    the iteration evaluates the rules, none of the five alerts (long
    session, no break, late night, daily and weekly limit) is shown in it
    and the flag is false when the rules are evaluated, that is, it was
    false before or the day is new; the periodic reminders play no part.
    Showing it sets the flag, and over any iterations whose [now] lies on
    one calendar day it is shown at most once. *)
Theorem positive_reinforcement_once (print_func : bool) (now : datetime)
    (commit_times : list datetime) (st : State) (today : Z)
    (inputs : list (datetime * list datetime)) (st0 : State) :
  Forall (fun '(t, _) => date t = today) inputs ->
  let shown := popups (snd (tick print_func now commit_times st)) in
  let st' := fst (tick print_func now commit_times st) in
  (In great_job shown
   <-> first_run st = false
       /\ commit_times <> []
       /\ (forall n, In n shown -> ~ is_alert n)
       /\ (positive_reinforcement_given st = false
           \/ last_day st <> Some (date now)))
  /\ (In great_job shown -> positive_reinforcement_given st' = true)
  /\ (times_shown great_job (snd (ticks print_func inputs st0)) <= 1)%nat.
Proof.
  intros Hday shown st'.
  split; [|split; [|apply (great_job_once print_func today inputs Hday)]];
    unfold shown, st';
    destruct (tick_branch print_func now commit_times st)
      as [Hf Hst Hp|Hf Hc Hst Hp|sessions Hf Hr Ht Hp]; rewrite Hp.
  - split; [intros [H|[]]; other_title|]. intros (H & _). congruence.
  - split; [intros [H|[]]; other_title|]. intros (_ & H & _). congruence.
  - unfold evaluate_rules at 1. rewrite great_job_In, positive_iff.
    assert (commit_times <> []) by (intros ->; discriminate). tauto.
  - intros [H|[]]; other_title.
  - intros [H|[]]; other_title.
  - rewrite Ht. cbn [fst]. unfold evaluate_rules at 1. rewrite great_job_In.
    intros Hpos. destruct (positive_after_roll now sessions st) as [_ Hg].
    cbv zeta in Hg. rewrite Hg, Hpos. reflexivity.
Qed.

(** Five iterations on day 739923 over one short session, starting with the
    first run: the second shows the positive reinforcement, with all four
    reminders, and no other does. *)
Lemma positive_reinforcement_once_witness :
  let today := 739923 in
  let commit_times := [at_time today 9 0 0; at_time today 9 3 0] in
  let inputs :=
    [(at_time today 14 0 0, commit_times);
     (at_time today 14 10 0, commit_times);
     (at_time today 14 20 0, commit_times);
     (at_time today 16 0 0, commit_times);
     (at_time today 23 50 0, commit_times)] in
  Forall (fun '(t, _) => date t = today) inputs
  /\ (times_shown great_job (snd (ticks false inputs initial)) <= 1)%nat
  /\ times_shown great_job (snd (ticks false inputs initial)) = 1%nat
  /\ popups (snd (tick false (at_time today 14 10 0) commit_times
                       (clear_first_run initial)))
     = [hydration_reminder; activity_reminder; ergonomics_tip; mood_check;
        great_job].
Proof.
  intros today commit_times inputs.
  assert (Hall : Forall (fun '(t, _) => date t = today) inputs)
    by (repeat constructor).
  pose proof (positive_reinforcement_once false 0 [] initial today inputs
                initial Hall) as H.
  cbv zeta in H. destruct H as (_ & _ & Hone).
  split; [exact Hall|]. split; [exact Hone|].
  split; vm_compute; reflexivity.
Defined.

(** ** Day and week boundaries *)

Lemma tick_keeps_totals (print_func : bool) (now : datetime)
    (commit_times : list datetime) (st : State) :
  first_run st = true \/ commit_times = [] ->
  let st' := fst (tick print_func now commit_times st) in
  daily_coding_minutes st' = daily_coding_minutes st
  /\ weekly_coding_minutes st' = weekly_coding_minutes st
  /\ last_day st' = last_day st
  /\ last_week st' = last_week st
  /\ positive_reinforcement_given st' = positive_reinforcement_given st.
Proof.
  intros Hno st'. unfold st'.
  destruct (tick_branch print_func now commit_times st)
    as [Hf Hst Hp|Hf Hc Hst Hp|sessions Hf Hr Ht Hp].
  - rewrite Hst. repeat split.
  - rewrite Hst. repeat split.
  - exfalso. destruct Hno as [Hno| ->]; [congruence|discriminate].
Qed.

(** X15.  An iteration that evaluates the rules first rolls the boundaries:
    the daily minutes restart from zero exactly when the day of [now]
    differs from the stored day, and then the flag of the positive
    reinforcement is cleared and the stored day becomes today; the weekly
    minutes restart exactly when the ISO week number of [now] differs from
    the stored number, the year not being compared.  The minutes of today's
    sessions, and of the sessions with this week number, which are not
    negative, are added after that, so while the stored day, or week number,
    is that of [now] the totals never decrease; an iteration that does not
    evaluate the rules leaves totals, day, week number and flag as they
    are. *)
Theorem rolling_totals (print_func : bool) (now : datetime)
    (commit_times : list datetime) (sessions : list Session) (st : State) :
  first_run st = false ->
  analyze_sessions commit_times = Some sessions ->
  let today := date now in
  let week := isocalendar_week now in
  let rolled := roll_boundaries now st in
  let st' := fst (tick print_func now commit_times st) in
  let shown := popups (snd (tick print_func now commit_times st)) in
  st' = fst (collect_notifications now sessions
               (add_coding_minutes now sessions rolled))
  /\ (daily_coding_minutes rolled
      = (if differs (last_day st) today then 0 else daily_coding_minutes st)
      /\ positive_reinforcement_given rolled
         = (if differs (last_day st) today then false
            else positive_reinforcement_given st)
      /\ weekly_coding_minutes rolled
         = (if differs (last_week st) week then 0
            else weekly_coding_minutes st)
      /\ last_day rolled = Some today /\ last_week rolled = Some week)
  /\ (daily_coding_minutes st'
      = daily_coding_minutes rolled + daily_minutes_delta today sessions
      /\ weekly_coding_minutes st'
         = weekly_coding_minutes rolled + minutes_of_week_number week sessions
      /\ 0 <= daily_minutes_delta today sessions
      /\ 0 <= minutes_of_week_number week sessions)
  /\ (last_day st = Some today ->
      daily_coding_minutes st <= daily_coding_minutes st')
  /\ (last_week st = Some week ->
      weekly_coding_minutes st <= weekly_coding_minutes st')
  /\ (last_day st' = Some today /\ last_week st' = Some week)
  /\ (positive_reinforcement_given st' = true
      <-> In great_job shown
          \/ (last_day st = Some today
              /\ positive_reinforcement_given st = true))
  /\ (forall st0 commit_times0,
        first_run st0 = true \/ commit_times0 = [] ->
        let st0' := fst (tick print_func now commit_times0 st0) in
        daily_coding_minutes st0' = daily_coding_minutes st0
        /\ weekly_coding_minutes st0' = weekly_coding_minutes st0
        /\ last_day st0' = last_day st0
        /\ last_week st0' = last_week st0
        /\ positive_reinforcement_given st0'
           = positive_reinforcement_given st0).
Proof.
  intros Hf Hr today week rolled st' shown.
  pose proof (tick_rules print_func now _ _ _ Hf Hr) as Ht.
  assert (Hst : st' = fst (evaluate_rules now sessions st))
    by (unfold st'; rewrite Ht; reflexivity).
  assert (Hshown : shown = snd (evaluate_rules now sessions st)).
  { unfold shown. rewrite Ht. cbn [snd].
    rewrite popups_app, popups_printed, popups_show. reflexivity. }
  destruct (evaluate_rules_minutes now _ _ st Hr) as (Hd & Hw & Hd0 & Hw0).
  cbv zeta in Hd, Hw. rewrite <- Hst in Hd, Hw.
  destruct (evaluate_rules_last_day now sessions st) as (Hld & Hlw & _).
  rewrite <- Hst in Hld, Hlw.
  fold today in Hd, Hd0, Hld. fold week in Hw, Hw0, Hlw.
  split; [exact Hst|]. split.
  { split; [reflexivity|]. split; [reflexivity|]. split; [reflexivity|].
    rewrite Hst in Hld, Hlw. split; [exact Hld|exact Hlw]. }
  split.
  { split; [exact Hd|]. split; [exact Hw|]. split; assumption. }
  split.
  { intros Hsame. rewrite Hd.
    replace (differs (last_day st) today) with false
      by (symmetry; apply differs_false, Hsame).
    lia. }
  split.
  { intros Hsame. rewrite Hw.
    replace (differs (last_week st) week) with false
      by (symmetry; apply differs_false, Hsame).
    lia. }
  split; [split; assumption|]. split.
  - rewrite Hst, Hshown. unfold evaluate_rules at 2. rewrite great_job_In.
    destruct (positive_after_roll now sessions st) as [Hg2 Hg'].
    cbv zeta in Hg2, Hg'. rewrite Hg'.
    destruct (positive sessions
                (add_coding_minutes now sessions (roll_boundaries now st)));
      [tauto|].
    rewrite Hg2, <- differs_false. fold today.
    destruct (differs (last_day st) today); intuition congruence.
  - intros st0 commit_times0. apply tick_keeps_totals.
Qed.

(** The day after 739923: the state holds four minutes and a set flag from
    the day before; the next evaluation restarts the daily minutes from
    zero, clears the flag and stores the new day, in the same ISO week. *)
Lemma rolling_totals_witness :
  let today := 739924 in
  let commit_times := [at_time 739923 9 0 0; at_time 739923 9 4 0] in
  let sessions := [[at_time 739923 9 0 0; at_time 739923 9 4 0]] in
  let st :=
    fst (tick false (at_time 739923 14 0 0) commit_times
              (clear_first_run initial)) in
  let now := at_time today 8 0 0 in
  let rolled := roll_boundaries now st in
  let st' := fst (tick false now commit_times st) in
  first_run st = false
  /\ analyze_sessions commit_times = Some sessions
  /\ daily_coding_minutes st = 4
  /\ positive_reinforcement_given st = true
  /\ last_day st = Some 739923
  /\ daily_coding_minutes rolled = 0
  /\ positive_reinforcement_given rolled = false
  /\ last_day rolled = Some today
  /\ weekly_coding_minutes st <= weekly_coding_minutes st'.
Proof.
  intros today commit_times sessions st now rolled st'.
  assert (Hf : first_run st = false) by reflexivity.
  assert (Hr : analyze_sessions commit_times = Some sessions) by reflexivity.
  pose proof (rolling_totals false now commit_times sessions st Hf Hr) as H.
  cbv zeta in H.
  destruct H as (_ & (Hd & Hg & _ & Hld & _) & _ & _ & Hweek & _).
  split; [exact Hf|]. split; [exact Hr|].
  split; [reflexivity|]. split; [reflexivity|]. split; [reflexivity|].
  split; [exact Hd|]. split; [exact Hg|]. split; [exact Hld|].
  apply Hweek. reflexivity.
Defined.

(** C6, where the source departs from it.  The stored week is the ISO week
    number alone.  An evaluation on 2025-11-04, in week 45 of 2025, stores
    45 and leaves four weekly minutes; an iteration without commit data in
    between changes nothing; the next evaluation, on 2026-11-03, is in
    another ISO week, week 45 of 2026: the day differs and the daily minutes
    restart from zero, but the week number does not and the weekly minutes
    are kept, and the session of 2025 is added to them once more. *)
Theorem weekly_total_kept_across_years :
  let commit_times := [at_time 739559 9 0 0; at_time 739559 9 4 0] in
  let before := at_time 739559 14 0 0 in
  let between := at_time 739741 14 0 0 in
  let now := at_time 739923 14 0 0 in
  let st :=
    fst (ticks false [(before, commit_times); (between, [])]
               (clear_first_run initial)) in
  let rolled := roll_boundaries now st in
  let st' := fst (tick false now commit_times st) in
  (iso_week before = (2025, 45) /\ iso_week now = (2026, 45)
   /\ iso_week before <> iso_week now)
  /\ (last_day st = Some 739559 /\ last_week st = Some 45
      /\ daily_coding_minutes st = 4 /\ weekly_coding_minutes st = 4)
  /\ (date now = 739923 /\ daily_coding_minutes rolled = 0
      /\ last_day rolled = Some 739923)
  /\ (weekly_coding_minutes rolled = 4 /\ last_week rolled = Some 45)
  /\ (daily_coding_minutes st' = 0 /\ weekly_coding_minutes st' = 8).
Proof.
  intros commit_times before between now st rolled st'.
  split; [split; [vm_compute; reflexivity
                 |split; [vm_compute; reflexivity|vm_compute; discriminate]]|].
  repeat split; vm_compute; reflexivity.
Qed.

(** ** The stop signal *)

Lemma wait_stops (w : World) (ts : Z) (n : nat) :
  stop_set_at w = Some ts ->
  forall clock,
    ts <= clock + seconds (Z.of_nat n - 1) ->
    (0 < n)%nat ->
    exists finish,
      wait w clock n = (finish, true)
      /\ (ts <= clock -> finish = clock)
      /\ (clock < ts -> ts <= finish < ts + seconds 1).
Proof.
  intros Hs. unfold seconds, usec_per_second.
  induction n as [|n IH]; intros clock Hts Hn; [lia|].
  cbn [wait]. unfold is_set. rewrite Hs.
  destruct (ts <=? clock) eqn:E.
  - apply Z.leb_le in E. exists clock. split; [reflexivity|]. split; lia.
  - apply Z.leb_gt in E.
    destruct (IH (clock + seconds 1)) as (finish & Hw & Hnow & Hlater).
    + unfold seconds, usec_per_second. lia.
    + unfold seconds, usec_per_second in Hts. lia.
    + exists finish. split; [exact Hw|]. split; [lia|]. intros _.
      unfold seconds, usec_per_second in *.
      destruct (Z_le_gt_dec ts (clock + 1 * 1000000)) as [Hle|Hgt].
      * rewrite (Hnow Hle). lia.
      * apply Hlater. lia.
Qed.

Lemma wait_unseen (w : World) (n : nat) :
  forall clock,
    match stop_set_at w with
    | Some ts => clock + seconds (Z.of_nat n - 1) < ts
    | None => True
    end ->
    wait w clock n = (clock + seconds (Z.of_nat n), false).
Proof.
  unfold seconds, usec_per_second.
  induction n as [|n IH]; intros clock Hts.
  - cbn [wait]. f_equal. simpl. lia.
  - cbn [wait]. unfold is_set.
    destruct (stop_set_at w) as [ts|] eqn:Hs.
    + destruct (ts <=? clock) eqn:E; [apply Z.leb_le in E; lia|].
      rewrite IH by (unfold seconds, usec_per_second; lia).
      f_equal. unfold seconds, usec_per_second. lia.
    + rewrite IH by exact I.
      f_equal. unfold seconds, usec_per_second. lia.
Qed.

Lemma loop_S (fuel : nat) (w : World) (print_func : bool) (st : State)
    (clock : Z) :
  loop (S fuel) w print_func st clock
  = (let '(st', events) :=
       tick print_func (wall_clock w clock) (git_log w clock) st in
     let '(trace, clock) := play clock events in
     let '(clock, stopped) := wait w clock 600 in
     if stopped then (trace, Some clock)
     else
       let '(trace', result) := loop fuel w print_func st' clock in
       (trace ++ trace', result)).
Proof. reflexivity. Qed.

Lemma loop_without_signal (w : World) (print_func : bool) :
  stop_set_at w = None ->
  forall fuel st clock, snd (loop fuel w print_func st clock) = None.
Proof.
  intros Hs. induction fuel as [|fuel IH]; intros st clock; [reflexivity|].
  rewrite loop_S.
  destruct (tick print_func (wall_clock w clock) (git_log w clock) st)
    as [st' events].
  destruct (play clock events) as [trace clock'].
  rewrite wait_unseen by (rewrite Hs; exact I).
  specialize (IH st' (clock' + seconds (Z.of_nat 600))).
  destruct (loop fuel w print_func st' (clock' + seconds (Z.of_nat 600))).
  exact IH.
Qed.

Lemma play_stamps (events : list Event) :
  Forall no_negative_sleep events ->
  forall clock,
    clock <= snd (play clock events)
    /\ Forall (fun te => clock <= fst te <= snd (play clock events))
              (fst (play clock events)).
Proof.
  induction 1 as [|e events He _ IH]; intros clock.
  - simpl. split; [lia|constructor].
  - cbn [play].
    set (clock' := match e with Sleep n => clock + seconds n | _ => clock end).
    assert (Hc : clock <= clock').
    { unfold clock'. destruct e; try lia.
      simpl in He. unfold seconds, usec_per_second. lia. }
    destruct (IH clock') as [IH1 IH2].
    destruct (play clock' events) as [trace finish]. cbn [fst snd] in *.
    split; [lia|]. constructor; [cbn [fst]; lia|].
    eapply Forall_impl; [|exact IH2]. cbv beta. intros te Hte. lia.
Qed.

Lemma tick_sleeps (print_func : bool) (now : datetime)
    (commit_times : list datetime) (st : State) :
  Forall no_negative_sleep (snd (tick print_func now commit_times st)).
Proof.
  assert (Hout : forall l : list datetime,
            Forall no_negative_sleep
              (if nonempty l then [] else [Stdout "No commit data found."])).
  { intros l. destruct (nonempty l); repeat constructor. }
  assert (Hprinted : forall text,
            Forall no_negative_sleep (printed print_func text)).
  { intros text. destruct print_func; repeat constructor. }
  assert (Hshow : forall ns, Forall no_negative_sleep (show ns)).
  { induction ns as [|n ns IH]; [constructor|].
    simpl. constructor; [exact I|]. constructor; [simpl; lia|exact IH]. }
  unfold tick. destruct (first_run st).
  - cbn [snd]. apply Forall_app. split; [apply Hout|repeat constructor].
  - destruct (analyze_sessions commit_times) as [[|s ss]|].
    + cbn [snd]. apply Forall_app. split; [apply Hout|].
      apply Forall_app. split; [apply Hprinted|repeat constructor].
    + destruct (evaluate_rules now (s :: ss) st) as [st' ns]. cbn [snd].
      apply Forall_app. split; [apply Hout|].
      apply Forall_app. split; [apply Hprinted|apply Hshow].
    + cbn [snd]. apply Forall_app. split; [apply Hout|].
      apply Forall_app. split; [apply Hprinted|repeat constructor].
Qed.

Lemma play_events (events : list Event) :
  forall clock, map snd (fst (play clock events)) = events.
Proof.
  induction events as [|e events IH]; intros clock; [reflexivity|].
  cbn [play].
  specialize (IH match e with Sleep n => clock + seconds n | _ => clock end).
  destruct (play match e with Sleep n => clock + seconds n | _ => clock end
                 events) as [trace finish].
  cbn [fst snd map] in *. f_equal. exact IH.
Qed.

(** Without a stop signal the loop runs the iterations of [ticks] on its
    schedule. *)
Lemma loop_ticks (w : World) (print_func : bool) :
  stop_set_at w = None ->
  forall fuel st clock,
    map snd (fst (loop fuel w print_func st clock))
    = concat (snd (ticks print_func (schedule fuel w print_func st clock) st)).
Proof.
  intros Hs. induction fuel as [|fuel IH]; intros st clock; [reflexivity|].
  rewrite loop_S. cbn [schedule].
  destruct (tick print_func (wall_clock w clock) (git_log w clock) st)
    as [st' events] eqn:Ht.
  rewrite ticks_cons, Ht. cbn [fst snd concat].
  pose proof (play_events events clock) as Hp.
  destruct (play clock events) as [trace clock']. cbn [fst snd] in *.
  rewrite wait_unseen by (rewrite Hs; exact I).
  change (Z.of_nat 600) with 600.
  specialize (IH st' (clock' + seconds 600)).
  destruct (loop fuel w print_func st' (clock' + seconds 600)) as [trace' r].
  cbn [fst] in *. rewrite map_app, Hp, IH. reflexivity.
Qed.

(** C9, as the source has it.  The stop signal is tested in the wait
    between iterations only, once before each of its 600 sleeps of a second.
    An iteration plays all its events, two seconds after each notification,
    whenever the signal was set; if the signal is set by the last test of the
    wait that follows, the loop returns at the first test that sees it: at
    the start of the wait if it was set before, and otherwise less than a
    second after it was set, with nothing shown in between.  Without a signal
    the loop never returns. *)
Theorem stop_during_wait (fuel : nat) (w : World) (print_func : bool)
    (st : State) (clock ts : Z) :
  stop_set_at w = Some ts ->
  let events :=
    snd (tick print_func (wall_clock w clock) (git_log w clock) st) in
  let trace := fst (play clock events) in
  let wait_from := snd (play clock events) in
  ts <= wait_from + seconds 599 ->
  (exists finish,
     loop (S fuel) w print_func st clock = (trace, Some finish)
     /\ (ts <= wait_from -> finish = wait_from)
     /\ (wait_from < ts -> ts <= finish < ts + seconds 1))
  /\ map snd trace = events
  /\ Forall (fun te => clock <= fst te <= wait_from) trace
  /\ (forall w' fuel' st0 clock0,
        stop_set_at w' = None ->
        snd (loop fuel' w' print_func st0 clock0) = None).
Proof.
  intros Hs events trace wait_from Hts.
  split; [|split; [apply play_events|split]].
  - destruct (wait_stops w ts 600 Hs wait_from) as (finish & Hw & H1 & H2).
    + exact Hts.
    + apply Nat.lt_0_succ.
    + exists finish. split; [|split; assumption].
      rewrite loop_S. unfold trace, wait_from, events in *.
      destruct (tick print_func (wall_clock w clock) (git_log w clock) st)
        as [st' evs].
      cbn [snd] in *. destruct (play clock evs) as [tr c].
      cbn [fst snd] in *. rewrite Hw. reflexivity.
  - apply play_stamps, tick_sleeps.
  - intros w' fuel' st0 clock0 Hnone. apply loop_without_signal, Hnone.
Qed.

(** The signal comes 25 seconds into the wait after the first iteration:
    the loop returns at that second, having shown that monitoring
    started and nothing else. *)
Lemma stop_during_wait_witness :
  let w := {| wall_clock := fun c => at_time 739923 14 0 0 + c;
              git_log := fun _ => [at_time 739923 9 0 0];
              stop_set_at := Some (seconds 25) |} in
  stop_set_at w = Some (seconds 25)
  /\ seconds 25 <= 0 + seconds 599
  /\ exists finish,
       loop 1 w false initial 0 = ([(0, Popup started)], Some finish)
       /\ seconds 25 <= finish < seconds 25 + seconds 1.
Proof.
  intros w.
  assert (Hs : stop_set_at w = Some (seconds 25)) by reflexivity.
  assert (Hts : seconds 25 <= 0 + seconds 599) by (vm_compute; discriminate).
  destruct (stop_during_wait 0 w false initial 0 (seconds 25) Hs Hts)
    as ((finish & Hl & _ & Hlate) & _).
  split; [exact Hs|]. split; [exact Hts|].
  exists finish. split; [exact Hl|]. apply Hlate. reflexivity.
Defined.

(** C9, as stated, fails when the signal is set while notifications are
    shown.  It is set at 601 s, one second into the five notifications of the
    second iteration: the other four are shown all the same, at 602, 604, 606
    and 608 s, and the loop returns at 610 s, nine seconds after the
    signal. *)
Lemma stop_during_notifications :
  let w := {| wall_clock := fun c => at_time 739923 14 0 0 + c;
              git_log := fun _ => [at_time 739923 9 0 0];
              stop_set_at := Some (seconds 601) |} in
  let trace := fst (health_check_loop 2 w false) in
  snd (health_check_loop 2 w false) = Some (seconds 610)
  /\ seconds 601 + seconds 1 < seconds 610
  /\ In (seconds 600, Popup hydration_reminder) trace
  /\ In (seconds 602, Popup activity_reminder) trace
  /\ In (seconds 604, Popup ergonomics_tip) trace
  /\ In (seconds 606, Popup mood_check) trace
  /\ In (seconds 608, Popup great_job) trace.
Proof.
  intros w trace. split; [vm_compute; reflexivity|].
  split; [reflexivity|].
  assert (Ht : trace
               = [(0, Popup started);
                  (seconds 600, Popup hydration_reminder);
                  (seconds 600, Sleep 2);
                  (seconds 602, Popup activity_reminder);
                  (seconds 602, Sleep 2);
                  (seconds 604, Popup ergonomics_tip);
                  (seconds 604, Sleep 2);
                  (seconds 606, Popup mood_check);
                  (seconds 606, Sleep 2);
                  (seconds 608, Popup great_job);
                  (seconds 608, Sleep 2)])
    by (vm_compute; reflexivity).
  rewrite Ht. cbn [In]. repeat split; tauto.
Qed.

(** A signal set in the last second of a wait, after its last test, is not
    seen before the next iteration has shown its notifications. *)
Example stop_after_last_test :
  let w := {| wall_clock := fun c => at_time 739923 14 0 0 + c;
              git_log := fun _ => [at_time 739923 9 0 0];
              stop_set_at := Some (seconds 599 + 500000) |} in
  snd (health_check_loop 2 w false) = Some (seconds 610)
  /\ map fst (filter (fun te => match snd te with Popup _ => true
                                                  | _ => false end)
                     (fst (health_check_loop 2 w false)))
     = [0; seconds 600; seconds 602; seconds 604; seconds 606; seconds 608].
Proof. vm_compute. split; reflexivity. Qed.


(** * Further properties of the code *)

(** ** The segmenter and the order of its input *)

Lemma StronglySorted_unique (a : list datetime) :
  forall b,
    StronglySorted Z.le a -> StronglySorted Z.le b -> Permutation a b ->
    a = b.
Proof.
  induction a as [|x a IH]; intros b Ha Hb Hp.
  - apply Permutation_nil in Hp. congruence.
  - destruct b as [|y b];
      [apply Permutation_sym, Permutation_nil in Hp; discriminate|].
    inversion Ha as [|? ? Ha' Hx]; subst. inversion Hb as [|? ? Hb' Hy]; subst.
    rewrite Forall_forall in Hx, Hy.
    assert (Hxy : x = y).
    { assert (Hin1 : In y (x :: a))
        by (apply (Permutation_in _ (Permutation_sym Hp)); left; reflexivity).
      assert (Hin2 : In x (y :: b))
        by (apply (Permutation_in _ Hp); left; reflexivity).
      destruct Hin1 as [|Hin1]; [assumption|].
      destruct Hin2 as [|Hin2]; [congruence|].
      specialize (Hx _ Hin1). specialize (Hy _ Hin2). lia. }
    subst y. f_equal. apply IH; try assumption.
    apply Permutation_cons_inv with (a := x). exact Hp.
Qed.

Lemma sorted_StronglySorted (l : list datetime) :
  StronglySorted Z.le (sorted l).
Proof.
  apply Sorted_StronglySorted; [|apply sorted_Sorted].
  intros a b c; apply Z.le_trans.
Qed.

Lemma sorted_Permutation_eq (l l' : list datetime) :
  Permutation l l' -> sorted l = sorted l'.
Proof.
  intros Hp. apply StronglySorted_unique; try apply sorted_StronglySorted.
  eapply perm_trans; [apply Permutation_sym, sorted_Permutation|].
  eapply perm_trans; [exact Hp|apply sorted_Permutation].
Qed.

Lemma analyze_sessions_by_sorted (l l' : list datetime) :
  nonempty l = nonempty l' -> sorted l = sorted l' ->
  analyze_sessions l = analyze_sessions l'.
Proof. intros Hn Hs. unfold analyze_sessions. rewrite Hn, Hs. reflexivity. Qed.

Lemma nonempty_Permutation (l l' : list datetime) :
  Permutation l l' -> nonempty l = nonempty l'.
Proof.
  intros Hp. apply Permutation_length in Hp.
  destruct l, l'; try discriminate; reflexivity.
Qed.

(** X1.  The result of [analyze_sessions] does not depend on the order in
    which the commit instants come: two lists that are permutations of each
    other give the same sessions. *)
Theorem analyze_sessions_any_order (l l' : list datetime) :
  Permutation l l' -> analyze_sessions l = analyze_sessions l'.
Proof.
  intros Hp. apply analyze_sessions_by_sorted.
  - apply nonempty_Permutation, Hp.
  - apply sorted_Permutation_eq, Hp.
Qed.

Lemma analyze_sessions_any_order_witness :
  Permutation [seconds 601; 0; seconds 300; 0]
              [0; seconds 300; seconds 601; 0]
  /\ analyze_sessions [seconds 601; 0; seconds 300; 0]
     = analyze_sessions [0; seconds 300; seconds 601; 0].
Proof.
  assert (Hp : Permutation [seconds 601; 0; seconds 300; 0]
                           [0; seconds 300; seconds 601; 0]).
  { apply perm_trans with (l' := [0; seconds 601; seconds 300; 0]);
      [apply perm_swap|].
    apply perm_skip, perm_swap. }
  split; [exact Hp|]. apply (analyze_sessions_any_order _ _ Hp).
Defined.

(** X2.  Segmenting again what the sessions hold gives the same sessions:
    [analyze_sessions] applied to the concatenation of its result returns
    that result. *)
Theorem analyze_sessions_again (commit_times : list datetime)
    (sessions : list Session) :
  analyze_sessions commit_times = Some sessions ->
  analyze_sessions (concat sessions) = Some sessions.
Proof.
  intros Hr.
  assert (Hne : commit_times <> []) by (intros ->; discriminate).
  destruct (analyze_sessions_segmented commit_times Hne)
    as (ss & Hr' & _ & _ & Hc).
  rewrite Hr in Hr'. inversion Hr'; subst ss. clear Hr'.
  rewrite <- Hr, Hc. apply analyze_sessions_by_sorted.
  - apply nonempty_Permutation, Permutation_sym, sorted_Permutation.
  - apply sorted_Permutation_eq, Permutation_sym, sorted_Permutation.
Qed.

Lemma analyze_sessions_again_witness :
  let commit_times := [seconds 601; 0; seconds 300; 0] in
  let sessions := [[0; 0; seconds 300]; [seconds 601]] in
  analyze_sessions commit_times = Some sessions
  /\ analyze_sessions (concat sessions) = Some sessions.
Proof.
  intros commit_times sessions.
  assert (Hr : analyze_sessions commit_times = Some sessions) by reflexivity.
  split; [exact Hr|]. exact (analyze_sessions_again _ _ Hr).
Defined.

(** ** How many sessions, and in what order *)

Lemma segment_count (l : list datetime) :
  forall (x : datetime) (sessions : list Session) (s : Session),
    length (fst (fold_left segment_step (adjacent (x :: l)) (sessions, s)))
    = (length sessions + length (filter is_break (adjacent (x :: l))))%nat.
Proof.
  induction l as [|y l IH]; intros x sessions s.
  - simpl. lia.
  - rewrite adjacent_cons. cbn [fold_left filter].
    assert (Hb : is_break (x, y) = (MIN_BREAK_MINUTES * 60000000 <? y - x))
      by reflexivity.
    rewrite Hb. clear Hb.
    replace (segment_step (sessions, s) (x, y))
      with (if MIN_BREAK_MINUTES * 60000000 <? y - x
            then (sessions ++ [s], [y]) else (sessions, s ++ [y]))
      by (unfold segment_step; rewrite gt_minutes; reflexivity).
    destruct (MIN_BREAK_MINUTES * 60000000 <? y - x).
    + rewrite IH, length_app. cbn [length]. lia.
    + rewrite IH. reflexivity.
Qed.

(** X3.  The number of sessions is one more than the number of neighbours
    of the sorted input that are more than [MIN_BREAK_MINUTES] apart. *)
Theorem analyze_sessions_count (commit_times : list datetime)
    (sessions : list Session) :
  analyze_sessions commit_times = Some sessions ->
  length sessions
  = S (length (filter is_break (adjacent (sorted commit_times)))).
Proof.
  unfold analyze_sessions. destruct (nonempty commit_times) eqn:Hn;
    [|discriminate].
  cbn [negb]. pose proof (sorted_nonempty _ Hn) as Hs.
  destruct (sorted commit_times) as [|x l]; [discriminate|].
  change (hd 0 (x :: l)) with x.
  pose proof (segment_count l x [] [x]) as Hc.
  destruct (segment_loop l x [] [x]) as (ss & s & Hf & Hs' & _).
  - discriminate.
  - reflexivity.
  - repeat split; repeat constructor. discriminate.
  - unfold Session, datetime in *. rewrite Hf in Hc |- *. cbn [fst] in Hc.
    destruct s; [congruence|]. cbn [nonempty]. intros Hr.
    inversion Hr; subst. rewrite length_app, Hc. cbn [length]. lia.
Qed.

Lemma analyze_sessions_count_witness :
  let commit_times := [seconds 601; 0; seconds 300; 0; seconds 2000] in
  let sessions := [[0; 0; seconds 300]; [seconds 601]; [seconds 2000]] in
  analyze_sessions commit_times = Some sessions
  /\ length sessions
     = S (length (filter is_break (adjacent (sorted commit_times))))
  /\ length (filter is_break (adjacent (sorted commit_times))) = 2%nat.
Proof.
  intros commit_times sessions.
  assert (Hr : analyze_sessions commit_times = Some sessions) by reflexivity.
  split; [exact Hr|]. split; [|reflexivity].
  exact (analyze_sessions_count _ _ Hr).
Defined.

Lemma separated_starts (sessions : list Session) :
  Forall (fun s => 0 <= span s) sessions ->
  separated sessions ->
  Sorted Z.lt (map first sessions) /\ Sorted Z.lt (map final sessions).
Proof.
  unfold separated, span.
  induction 1 as [|s ss Hs Hss IH]; intros Hsep; [split; constructor|].
  destruct ss as [|s' ss].
  - split; repeat constructor.
  - rewrite adjacent_cons in Hsep. inversion Hsep as [|? ? Hgap Hsep']; subst.
    destruct (IH Hsep') as [IH1 IH2]. inversion Hss as [|? ? Hs' _]; subst.
    unfold minutes, MIN_BREAK_MINUTES, usec_per_second in Hgap.
    split; cbn [map] in *; (constructor; [assumption|constructor; lia]).
Qed.

(** X4.  The sessions come in the order of time and do not overlap: inside
    a session the instants never decrease, every session ends before the
    next one starts, and the starts, like the ends, strictly increase along
    the list. *)
Theorem analyze_sessions_ordered (commit_times : list datetime)
    (sessions : list Session) :
  analyze_sessions commit_times = Some sessions ->
  Forall (StronglySorted Z.le) sessions
  /\ Forall (fun s => first s <= final s) sessions
  /\ Forall (fun '(before, after) => final before < first after)
            (adjacent sessions)
  /\ StronglySorted Z.lt (map first sessions)
  /\ StronglySorted Z.lt (map final sessions).
Proof.
  intros Hr.
  assert (Hne : commit_times <> []) by (intros ->; discriminate).
  destruct (analyze_sessions_segmented commit_times Hne)
    as (ss & Hr' & _ & (_ & _ & Hsep) & Hc).
  rewrite Hr in Hr'. inversion Hr'; subst ss. clear Hr'.
  pose proof (analyze_sessions_span _ _ Hr) as Hspan.
  destruct (separated_starts sessions Hspan Hsep) as [H1 H2].
  split; [|split; [|split; [|split]]].
  - apply Forall_forall. intros s Hs.
    apply (StronglySorted_concat sessions); [|exact Hs].
    rewrite Hc. apply sorted_StronglySorted.
  - eapply Forall_impl; [|exact Hspan]. unfold span. intros s Hs. lia.
  - eapply Forall_impl; [|exact Hsep]. intros [b a] Hgap.
    unfold minutes, MIN_BREAK_MINUTES, usec_per_second in Hgap. lia.
  - apply Sorted_StronglySorted; [|exact H1]. intros a b c; apply Z.lt_trans.
  - apply Sorted_StronglySorted; [|exact H2]. intros a b c; apply Z.lt_trans.
Qed.

Lemma analyze_sessions_ordered_witness :
  let commit_times := [seconds 601; 0; seconds 300; 0; seconds 2000] in
  let sessions := [[0; 0; seconds 300]; [seconds 601]; [seconds 2000]] in
  analyze_sessions commit_times = Some sessions
  /\ Forall (StronglySorted Z.le) sessions
  /\ Forall (fun s => first s <= final s) sessions
  /\ Forall (fun '(before, after) => final before < first after)
            (adjacent sessions)
  /\ StronglySorted Z.lt (map first sessions)
  /\ StronglySorted Z.lt (map final sessions).
Proof.
  intros commit_times sessions.
  assert (Hr : analyze_sessions commit_times = Some sessions) by reflexivity.
  split; [exact Hr|]. exact (analyze_sessions_ordered _ _ Hr).
Defined.

(** ** Order and number of the notifications of an iteration *)

Section Subsequence.
Context {A : Type}.

Lemma subsequence_snoc_keep (x : A) (l1 l2 : list A) :
  subsequence l1 l2 -> subsequence (l1 ++ [x]) (l2 ++ [x]).
Proof.
  induction 1; simpl.
  - apply subsequence_keep, subsequence_nil.
  - apply subsequence_skip; assumption.
  - apply subsequence_keep; assumption.
Qed.

Lemma subsequence_snoc_skip (x : A) (l1 l2 : list A) :
  subsequence l1 l2 -> subsequence l1 (l2 ++ [x]).
Proof.
  induction 1; simpl.
  - apply subsequence_skip, subsequence_nil.
  - apply subsequence_skip; assumption.
  - apply subsequence_keep; assumption.
Qed.

Lemma subsequence_In (l1 l2 : list A) (x : A) :
  subsequence l1 l2 -> In x l1 -> In x l2.
Proof.
  induction 1; simpl; [tauto| |]; intuition.
Qed.

Lemma subsequence_length (l1 l2 : list A) :
  subsequence l1 l2 -> (length l1 <= length l2)%nat.
Proof. induction 1; simpl; lia. Qed.

Lemma subsequence_NoDup (l1 l2 : list A) :
  subsequence l1 l2 -> NoDup l2 -> NoDup l1.
Proof.
  induction 1; intros Hn; [constructor| |];
    inversion Hn as [|? ? Hx Hn']; subst.
  - apply IHsubsequence, Hn'.
  - constructor; [|apply IHsubsequence, Hn'].
    intros Hin. apply Hx. eapply subsequence_In; eassumption.
Qed.
End Subsequence.

Lemma subsequence_append_if (c : bool) (n : Notification)
    (l1 l2 : list Notification) :
  subsequence l1 l2 -> subsequence (append_if c n l1) (l2 ++ [n]).
Proof.
  intros H. unfold append_if. destruct c.
  - apply subsequence_snoc_keep, H.
  - apply subsequence_snoc_skip, H.
Qed.

Lemma collect_subsequence (now : datetime) (sessions : list Session)
    (st : State) :
  subsequence (snd (collect_notifications now sessions st))
              (priority (length (long_sessions sessions))).
Proof.
  unfold collect_notifications. cbn [snd].
  change (priority (length (long_sessions sessions)))
    with ((((((((((([] ++ [long_alert (length (long_sessions sessions))])
                   ++ [break_alert]) ++ [night_alert]) ++ [daily_alert])
                ++ [weekly_alert]) ++ [hydration_reminder])
              ++ [activity_reminder]) ++ [ergonomics_tip]) ++ [mood_check])
           ++ [great_job])).
  repeat apply subsequence_append_if. apply subsequence_nil.
Qed.

Lemma priority_NoDup (n : nat) : NoDup (priority n).
Proof.
  apply (NoDup_map_inv fst). cbn [map priority fst long_alert break_alert
    night_alert daily_alert weekly_alert hydration_reminder activity_reminder
    ergonomics_tip mood_check great_job].
  repeat (constructor;
          [cbn [In]; intros H; decompose [or] H; try discriminate; assumption|]).
  constructor.
Qed.

Lemma notifications_length (print_func : bool) (now : datetime)
    (commit_times : list datetime) (st : State) :
  (length (popups (snd (tick print_func now commit_times st))) <= 10)%nat.
Proof.
  destruct (tick_branch print_func now commit_times st)
    as [Hf Hst Hp|Hf Hc Hst Hp|sessions Hf Hr Ht Hp]; rewrite Hp.
  - cbn. lia.
  - cbn. lia.
  - pose proof (collect_subsequence now sessions
                  (add_coding_minutes now sessions (roll_boundaries now st)))
      as Hsub.
    fold (evaluate_rules now sessions st) in Hsub.
    apply subsequence_length in Hsub. exact Hsub.
Qed.

(** X5.  The notifications of an iteration are the start notification
    alone, the no-data notification alone, or some of the ten notifications
    of a rule evaluation in their fixed order (the five alerts, the four
    reminders, the positive reinforcement): never more than ten, and none
    twice. *)
Theorem notifications_in_order (print_func : bool) (now : datetime)
    (commit_times : list datetime) (st : State) :
  let shown := popups (snd (tick print_func now commit_times st)) in
  (shown = [started] \/ shown = [no_data]
   \/ exists n, subsequence shown (priority n))
  /\ (length shown <= 10)%nat
  /\ NoDup shown.
Proof.
  intros shown. unfold shown.
  destruct (tick_branch print_func now commit_times st)
    as [Hf Hst Hp|Hf Hc Hst Hp|sessions Hf Hr Ht Hp]; rewrite Hp.
  - split; [tauto|]. split; [cbn; lia|]. repeat constructor. intros [].
  - split; [tauto|]. split; [cbn; lia|]. repeat constructor. intros [].
  - pose proof (collect_subsequence now sessions
                  (add_coding_minutes now sessions (roll_boundaries now st)))
      as Hsub.
    fold (evaluate_rules now sessions st) in Hsub.
    split; [right; right; eexists; exact Hsub|]. split.
    + apply subsequence_length in Hsub. exact Hsub.
    + eapply subsequence_NoDup; [exact Hsub|apply priority_NoDup].
Qed.

(** ** How long an iteration takes *)

Lemma play_app (e1 e2 : list Event) :
  forall clock,
    snd (play clock (e1 ++ e2)) = snd (play (snd (play clock e1)) e2).
Proof.
  induction e1 as [|e e1 IH]; intros clock; [reflexivity|].
  cbn [app play].
  specialize (IH match e with Sleep n => clock + seconds n | _ => clock end).
  destruct (play match e with Sleep n => clock + seconds n | _ => clock end
                 (e1 ++ e2)) as [t1 f1].
  destruct (play match e with Sleep n => clock + seconds n | _ => clock end
                 e1) as [t2 f2].
  cbn [snd] in *. exact IH.
Qed.

Lemma play_show (notifications : list Notification) :
  forall clock,
    snd (play clock (show notifications))
    = clock + seconds (2 * Z.of_nat (length notifications)).
Proof.
  unfold seconds, usec_per_second.
  induction notifications as [|n l IH]; intros clock.
  - simpl. lia.
  - change (show (n :: l)) with (Popup n :: Sleep 2 :: show l).
    cbn [play]. specialize (IH (clock + seconds 2)).
    destruct (play (clock + seconds 2) (show l)) as [t f]. cbn [snd] in *.
    rewrite IH. unfold seconds, usec_per_second. cbn [length]. lia.
Qed.

Lemma play_printed (print_func : bool) (text : string) (clock : Z) :
  snd (play clock (printed print_func text)) = clock.
Proof. destruct print_func; reflexivity. Qed.

(** X6.  An iteration that evaluates the rules takes two seconds for each
    notification it shows, the other iterations take no time; so an
    iteration never takes more than twenty seconds, and when no stop signal
    is set the next one starts 600 seconds after it. *)
Theorem iteration_duration (print_func : bool) (now : datetime)
    (commit_times : list datetime) (st : State) (clock : Z) (w : World) :
  let events := snd (tick print_func now commit_times st) in
  let finish := snd (play clock events) in
  finish
  = (if negb (first_run st) && nonempty commit_times
     then clock + seconds (2 * Z.of_nat (length (popups events)))
     else clock)
  /\ clock <= finish <= clock + seconds 20
  /\ (stop_set_at w = None ->
      wait w finish 600 = (finish + seconds 600, false)).
Proof.
  intros events finish.
  assert (Hfinish : finish
                    = (if negb (first_run st) && nonempty commit_times
                       then clock + seconds (2 * Z.of_nat
                                                   (length (popups events)))
                       else clock)).
  { unfold finish, events.
    destruct (tick_branch print_func now commit_times st)
      as [Hf Hst Hp|Hf Hc Hst Hp|sessions Hf Hr Ht Hp].
    - rewrite Hf. cbn [negb andb]. unfold tick. rewrite Hf. cbn [snd].
      destruct commit_times; reflexivity.
    - rewrite Hf, Hc. cbn [negb nonempty andb]. unfold tick. rewrite Hf.
      destruct print_func; reflexivity.
    - rewrite Hp, Ht, Hf. cbn [snd negb].
      assert (Hn : nonempty commit_times = true)
        by (destruct commit_times; [discriminate|reflexivity]).
      rewrite Hn. cbn [andb]. rewrite play_app, play_printed, play_show.
      reflexivity. }
  split; [exact Hfinish|]. split.
  - rewrite Hfinish.
    pose proof (notifications_length print_func now commit_times st) as Hlen.
    fold events in Hlen. unfold seconds, usec_per_second.
    destruct (negb (first_run st) && nonempty commit_times); lia.
  - intros Hs. rewrite wait_unseen by (rewrite Hs; exact I). reflexivity.
Qed.

(** ** The first run *)

Lemma evaluate_rules_started_count (now : datetime)
    (sessions : list Session) (st : State) :
  count_occ Notification_eq_dec (snd (evaluate_rules now sessions st)) started
  = 0%nat.
Proof.
  unfold evaluate_rules, collect_notifications. cbn [snd].
  rewrite !count_append_if_other by (intros H; other_title). reflexivity.
Qed.

(** X7.  The notification that monitoring started is shown once, by the
    first iteration of a run that starts with the first-run flag set, as the
    loop does, and by no other iteration; after any iteration the flag is
    cleared. *)
Theorem started_once (print_func : bool)
    (inputs : list (datetime * list datetime)) (st : State) :
  times_shown started (snd (ticks print_func inputs st))
  = (if first_run st && nonempty inputs then 1 else 0)%nat
  /\ first_run (fst (ticks print_func inputs st))
     = first_run st && negb (nonempty inputs)
  /\ popups (concat (firstn 1 (snd (ticks print_func inputs initial))))
     = (if nonempty inputs then [started] else []).
Proof.
  assert (Hgen : forall inputs st,
            times_shown started (snd (ticks print_func inputs st))
            = (if first_run st && nonempty inputs then 1 else 0)%nat
            /\ first_run (fst (ticks print_func inputs st))
               = first_run st && negb (nonempty inputs)).
  { clear. induction inputs as [|[now commit_times] inputs IH]; intros st.
    - cbn. rewrite !andb_false_r, andb_true_r. split; reflexivity.
    - rewrite ticks_cons. cbn [fst snd nonempty negb].
      rewrite times_shown_cons, !andb_true_r, andb_false_r.
      destruct (IH (fst (tick print_func now commit_times st))) as [IH1 IH2].
      rewrite IH1, IH2.
      destruct (tick_branch print_func now commit_times st)
        as [Hf Hst Hp|Hf Hc Hst Hp|sessions Hf Hr Ht Hp]; rewrite Hp.
      + rewrite Hst, Hf. cbn. split; reflexivity.
      + rewrite Hst, Hf. cbn. split; reflexivity.
      + rewrite Ht. cbn [fst]. rewrite evaluate_rules_started_count.
        destruct (evaluate_rules_last_day now sessions st) as (_ & _ & Hf').
        rewrite Hf', Hf. cbn. split; reflexivity. }
  destruct (Hgen inputs st) as [H1 H2].
  split; [exact H1|]. split; [exact H2|].
  destruct inputs as [|[now commit_times] inputs]; [reflexivity|].
  rewrite ticks_cons. cbn [snd firstn concat nonempty]. rewrite app_nil_r.
  destruct (tick_branch print_func now commit_times initial)
    as [Hf Hst Hp|Hf Hc Hst Hp|sessions Hf Hr Ht Hp];
    [exact Hp|discriminate|discriminate].
Qed.

(** ** Alerts that depend on the history alone *)

Lemma nonempty_filter {A : Type} (f : A -> bool) (l : list A) :
  nonempty (filter f l) = true <-> exists x, In x l /\ f x = true.
Proof.
  induction l as [|a l IH]; simpl.
  - split; [discriminate|intros (x & [] & _)].
  - destruct (f a) eqn:E; simpl.
    + split; [intros _; exists a; tauto|reflexivity].
    + rewrite IH. split; intros (x & Hin & Hx).
      * exists x; tauto.
      * destruct Hin as [<-|Hin]; [congruence|exists x; tauto].
Qed.

Lemma night_alert_In (now : datetime) (sessions : list Session) (st : State) :
  In night_alert (snd (evaluate_rules now sessions st))
  <-> nonempty (late_night_commits sessions) = true.
Proof.
  unfold evaluate_rules. rewrite collect_In. split.
  - intros H. decompose [or and] H; clear H; first [assumption | other_title].
  - tauto.
Qed.

Lemma great_job_needs_no_alert (now : datetime) (sessions : list Session)
    (st : State) (n : Notification) :
  is_alert n ->
  In n (snd (evaluate_rules now sessions st)) ->
  ~ In great_job (snd (evaluate_rules now sessions st)).
Proof.
  unfold evaluate_rules. intros Ha Hin Hg. apply great_job_In in Hg.
  assert (Hany : any_alert sessions
                   (add_coding_minutes now sessions (roll_boundaries now st))
                 = true)
    by (apply (alert_In now); exists n; split; assumption).
  unfold positive in Hg. rewrite Hany in Hg. discriminate.
Qed.

Lemma analyze_sessions_instants (commit_times : list datetime)
    (sessions : list Session) :
  analyze_sessions commit_times = Some sessions ->
  Permutation commit_times (concat sessions).
Proof.
  intros Hr.
  assert (Hne : commit_times <> []) by (intros ->; discriminate).
  destruct (analyze_sessions_segmented commit_times Hne)
    as (ss & Hr' & _ & _ & Hc).
  rewrite Hr in Hr'. inversion Hr'; subst ss. rewrite Hc.
  apply sorted_Permutation.
Qed.

Lemma filter_Permutation {A : Type} (f : A -> bool) (l l' : list A) :
  Permutation l l' -> Permutation (filter f l) (filter f l').
Proof.
  induction 1; simpl.
  - constructor.
  - destruct (f x); [apply perm_skip|]; assumption.
  - destruct (f x), (f y); try apply Permutation_refl. apply perm_swap.
  - eapply perm_trans; eassumption.
Qed.

(** X8.  Past the first run, the night-owl alert is shown exactly when the
    commit history holds an instant whose hour is 22 or later or before 6,
    whatever the time of the iteration and the state, so on every such
    iteration as long as the commit stays in the history; the positive
    reinforcement is then never shown.  The late-night commits counted are
    those of the history, duplicates included. *)
Theorem night_alert_by_history (print_func : bool) (now : datetime)
    (commit_times : list datetime) (st : State) :
  first_run st = false ->
  let shown := popups (snd (tick print_func now commit_times st)) in
  (In night_alert shown
   <-> exists c, In c commit_times /\ (22 <= hour c \/ hour c < 6))
  /\ (In night_alert shown -> ~ In great_job shown)
  /\ (forall sessions,
        analyze_sessions commit_times = Some sessions ->
        length (late_night_commits sessions)
        = length (filter is_late_night commit_times)).
Proof.
  intros Hf shown.
  assert (Hlate : forall c, is_late_night c = true
                            <-> 22 <= hour c \/ hour c < 6).
  { intros c. unfold is_late_night, LATE_NIGHT_START, LATE_NIGHT_END.
    rewrite orb_true_iff, Z.leb_le, Z.ltb_lt. reflexivity. }
  split; [|split].
  - unfold shown.
    destruct (tick_branch print_func now commit_times st)
      as [Hf' Hst Hp|Hf' Hc Hst Hp|sessions Hf' Hr Ht Hp]; rewrite Hp.
    + congruence.
    + subst commit_times. split; [intros [H|[]]; other_title|].
      intros (c & [] & _).
    + rewrite night_alert_In. unfold late_night_commits.
      rewrite nonempty_filter.
      pose proof (analyze_sessions_instants _ _ Hr) as Hperm.
      split; intros (c & Hin & Hc); exists c; (split; [|apply Hlate; exact Hc]).
      * apply (Permutation_in _ (Permutation_sym Hperm)), Hin.
      * apply (Permutation_in _ Hperm), Hin.
  - unfold shown.
    destruct (tick_branch print_func now commit_times st)
      as [Hf' Hst Hp|Hf' Hc Hst Hp|sessions Hf' Hr Ht Hp]; rewrite Hp.
    + congruence.
    + intros [H|[]]; other_title.
    + apply great_job_needs_no_alert. unfold is_alert. tauto.
  - intros sessions Hr. unfold late_night_commits.
    apply Permutation_length, filter_Permutation, Permutation_sym.
    apply analyze_sessions_instants, Hr.
Qed.

(** One commit at 23:30 among daytime commits: the alert is shown at noon. *)
Lemma night_alert_by_history_witness :
  let commit_times :=
    [at_time 739923 9 0 0; at_time 739920 23 30 0; at_time 739923 9 3 0] in
  let st := clear_first_run initial in
  let shown := popups (snd (tick false (at_time 739923 12 0 0)
                                 commit_times st)) in
  first_run st = false
  /\ In night_alert shown
  /\ ~ In great_job shown.
Proof.
  intros commit_times st shown.
  assert (Hf : first_run st = false) by reflexivity.
  destruct (night_alert_by_history false (at_time 739923 12 0 0)
              commit_times st Hf) as (Hiff & Hno & _).
  assert (Hin : In night_alert shown).
  { apply Hiff. exists (at_time 739920 23 30 0).
    split; [right; left; reflexivity|]. left. vm_compute. discriminate. }
  split; [exact Hf|]. split; [exact Hin|exact (Hno Hin)].
Defined.

Lemma long_alert_In (now : datetime) (sessions : list Session) (st : State)
    (n : nat) :
  In (long_alert n) (snd (evaluate_rules now sessions st))
  -> nonempty (long_sessions sessions) = true.
Proof.
  unfold evaluate_rules. rewrite collect_In.
  intros H. decompose [or and] H; clear H; first [assumption | other_title].
Qed.

Lemma break_alert_In (now : datetime) (sessions : list Session) (st : State) :
  In break_alert (snd (evaluate_rules now sessions st))
  <-> nonempty (no_break_sessions sessions) = true.
Proof.
  unfold evaluate_rules. rewrite collect_In. split.
  - intros H. decompose [or and] H; clear H; first [assumption | other_title].
  - tauto.
Qed.

Lemma long_session_no_break (s : Session) :
  within_break s -> is_long_session s = true -> is_no_break_session s = true.
Proof.
  intros Hin Hl. unfold is_no_break_session.
  pose proof (within_break_under_an_hour s Hin) as Hb.
  replace (forallb _ (adjacent s)) with true by (symmetry; exact Hb).
  unfold is_long_session in Hl. rewrite gt_hours in Hl |- *.
  apply Z.ltb_lt in Hl. apply Z.ltb_lt. unfold LONG_SESSION_HOURS in Hl. lia.
Qed.

Lemma append_if_true (n : Notification) (l : list Notification) :
  append_if true n l = l ++ [n].
Proof. reflexivity. Qed.

Lemma append_if_cons (c : bool) (n a : Notification)
    (l : list Notification) :
  append_if c n (a :: l) = a :: append_if c n l.
Proof. destruct c; reflexivity. Qed.

(** X9.  Whenever an iteration shows the long-session alert it shows the
    break reminder too, next after it, and the count in the alert is the
    number of sessions of more than three hours: the segmenter leaves no gap
    of an hour inside a session, so a long session always counts as one
    without a break. *)
Theorem long_alert_with_break_reminder (print_func : bool) (now : datetime)
    (commit_times : list datetime) (st : State) (n : nat) :
  let shown := popups (snd (tick print_func now commit_times st)) in
  In (long_alert n) shown ->
  In break_alert shown
  /\ exists sessions rest,
       analyze_sessions commit_times = Some sessions
       /\ (0 < length (filter (fun s => (hours 3 <? span s)%Z) sessions))%nat
       /\ shown
          = long_alert (length (filter (fun s => hours 3 <? span s) sessions))
              :: break_alert :: rest.
Proof.
  intros shown. unfold shown.
  destruct (tick_branch print_func now commit_times st)
    as [Hf Hst Hp|Hf Hc Hst Hp|sessions Hf Hr Ht Hp]; rewrite Hp.
  - intros [H|[]]; other_title.
  - intros [H|[]]; other_title.
  - intros Hin.
    assert (Hne : commit_times <> []) by (intros ->; discriminate).
    destruct (analyze_sessions_segmented commit_times Hne)
      as (ss & Hr' & _ & (_ & Hwithin & _) & _).
    rewrite Hr in Hr'. inversion Hr'; subst ss. clear Hr'.
    pose proof (long_alert_In _ _ _ _ Hin) as Hlong.
    assert (Hnb : nonempty (no_break_sessions sessions) = true).
    { apply nonempty_filter. apply nonempty_filter in Hlong.
      destruct Hlong as (s & Hs & Hl). exists s. split; [exact Hs|].
      apply long_session_no_break; [|exact Hl].
      rewrite Forall_forall in Hwithin. apply Hwithin, Hs. }
    assert (Hfilter : long_sessions sessions
                      = filter (fun s => hours 3 <? span s) sessions).
    { apply filter_ext. intros s. unfold is_long_session.
      rewrite gt_hours. reflexivity. }
    split; [apply break_alert_In, Hnb|].
    exists sessions. rewrite <- Hfilter.
    assert (Hshape : exists rest,
              snd (evaluate_rules now sessions st)
              = long_alert (length (long_sessions sessions))
                  :: break_alert :: rest).
    { unfold evaluate_rules, collect_notifications. cbn [snd].
      rewrite Hlong, Hnb, !append_if_true. cbn [app].
      rewrite !append_if_cons. eexists. reflexivity. }
    destruct Hshape as (rest & Hshape). exists rest.
    split; [exact Hr|]. split; [|exact Hshape].
    destruct (long_sessions sessions); [discriminate|cbn; lia].
Qed.

(** One session of three hours and a half, with a commit every five
    minutes. *)
Lemma long_alert_with_break_reminder_witness :
  let commit_times :=
    map (fun i => at_time 739923 8 (5 * Z.of_nat i) 0) (seq 0 43) in
  let shown :=
    popups (snd (tick false (at_time 739923 12 0 0) commit_times
                      (clear_first_run initial))) in
  In (long_alert 1) shown /\ In break_alert shown.
Proof.
  intros commit_times shown.
  assert (Hin : In (long_alert 1) shown).
  { assert (Hshown : shown
                     = [long_alert 1; break_alert; hydration_reminder;
                        activity_reminder; ergonomics_tip; mood_check])
      by (vm_compute; reflexivity).
    rewrite Hshown. left. reflexivity. }
  split; [exact Hin|].
  exact (proj1 (long_alert_with_break_reminder false (at_time 739923 12 0 0)
                  commit_times (clear_first_run initial) 1%nat Hin)).
Defined.

(** ** The overwork warning under the recount *)

Lemma daily_alert_In (now : datetime) (sessions : list Session) (st : State) :
  In daily_alert (snd (evaluate_rules now sessions st))
  <-> 8 * 60 < daily_coding_minutes (fst (evaluate_rules now sessions st)).
Proof.
  unfold evaluate_rules at 1. rewrite collect_In, <- Z.ltb_lt. split.
  - intros H. decompose [or and] H; clear H; first [assumption | other_title].
  - intros H. right. right. right. left. split; [exact H|reflexivity].
Qed.

Lemma ticks_keep_day (print_func : bool) (commit_times : list datetime)
    (sessions : list Session) (today : Z) (nows : list datetime) :
  analyze_sessions commit_times = Some sessions ->
  Forall (fun now => date now = today) nows ->
  forall st,
    first_run st = false -> last_day st = Some today ->
    let st' :=
      fst (ticks print_func (map (fun now => (now, commit_times)) nows) st) in
    first_run st' = false /\ last_day st' = Some today.
Proof.
  intros Hr. induction 1 as [|now nows Hnow _ IH]; intros st Hf Hd.
  - split; assumption.
  - cbn [map]. cbv zeta. rewrite ticks_cons, (tick_rules _ _ _ _ _ Hf Hr).
    cbn [fst].
    destruct (evaluate_rules_last_day now sessions st) as (Hd' & _ & Hf').
    apply IH; congruence.
Qed.

Lemma ticks_new_day (print_func : bool) (commit_times : list datetime)
    (sessions : list Session) (today : Z) (nows : list datetime) (st : State) :
  analyze_sessions commit_times = Some sessions ->
  Forall (fun now => date now = today) nows ->
  first_run st = false -> last_day st <> Some today ->
  let st' :=
    fst (ticks print_func (map (fun now => (now, commit_times)) nows) st) in
  first_run st' = false
  /\ (if differs (last_day st') today then 0 else daily_coding_minutes st')
     = Z.of_nat (length nows) * daily_minutes_delta today sessions.
Proof.
  intros Hr Hall Hf Hnew st'. unfold st'. clear st'.
  destruct Hall as [|now nows Hnow Hnows].
  - cbn. split; [exact Hf|].
    replace (differs (last_day st) today) with true
      by (symmetry; apply differs_true, Hnew).
    reflexivity.
  - cbn [map]. rewrite ticks_cons, (tick_rules _ _ _ _ _ Hf Hr). cbn [fst].
    destruct (evaluate_rules_last_day now sessions st) as (Hd' & _ & Hf').
    destruct (evaluate_rules_minutes now _ _ st Hr) as (Hm & _).
    cbv zeta in Hm. rewrite Hnow in Hd', Hm.
    replace (differs (last_day st) today) with true in Hm
      by (symmetry; apply differs_true, Hnew).
    rewrite Hf in Hf'.
    destruct (ticks_keep_day print_func _ _ today nows Hr Hnows
                (fst (evaluate_rules now sessions st)) Hf' Hd') as [Hf2 Hd2].
    cbv zeta in Hf2, Hd2. split; [exact Hf2|].
    replace (differs (last_day _) today) with false
      by (symmetry; apply differs_false, Hd2).
    rewrite (ticks_within_day print_func _ sessions today nows Hr Hnows _
               Hf' Hd'), Hm.
    cbn [length]. lia.
Qed.

(** X10.  On a new day over an unchanged commit history, the warning that
    more than 8 hours were coded today is shown by the k-th iteration that
    evaluates the rules exactly when k times the minutes of today's sessions
    exceed 480; with a single session of ten minutes that is the 49th
    iteration. *)
Theorem daily_alert_after_recount (print_func : bool)
    (commit_times : list datetime) (sessions : list Session) (today : Z)
    (nows : list datetime) (now : datetime) (st : State) :
  analyze_sessions commit_times = Some sessions ->
  first_run st = false ->
  last_day st <> Some today ->
  Forall (fun t => date t = today) (nows ++ [now]) ->
  let before :=
    fst (ticks print_func (map (fun t => (t, commit_times)) nows) st) in
  In daily_alert (popups (snd (tick print_func now commit_times before)))
  <-> 8 * 60
      < (Z.of_nat (length nows) + 1) * daily_minutes_delta today sessions.
Proof.
  intros Hr Hf Hnew Hall before.
  apply Forall_app in Hall as [Hnows Hnow].
  inversion Hnow as [|? ? Hnow' _]; subst.
  destruct (ticks_new_day print_func _ _ (date now) nows st Hr Hnows Hf Hnew)
    as [Hf' Hbase].
  fold before in Hf', Hbase.
  rewrite (tick_rules _ _ _ _ _ Hf' Hr). cbn [snd].
  rewrite popups_app, popups_printed, popups_show. cbn [app].
  rewrite daily_alert_In.
  destruct (evaluate_rules_minutes now _ _ before Hr) as (Hm & _).
  cbv zeta in Hm. rewrite Hm, Hbase. lia.
Qed.

(** A session of ten minutes on day 739923: the 48th evaluation of the day
    does not warn, the 49th does. *)
Lemma daily_alert_after_recount_witness :
  let today := 739923 in
  let commit_times := [at_time today 9 0 0; at_time today 9 5 0;
                       at_time today 9 10 0] in
  let sessions := [commit_times] in
  let st := clear_first_run initial in
  let nows := map (fun i => at_time today 10 0 (Z.of_nat i)) (seq 0 48) in
  let now := at_time today 11 0 0 in
  let before :=
    fst (ticks false (map (fun t => (t, commit_times)) nows) st) in
  analyze_sessions commit_times = Some sessions
  /\ first_run st = false
  /\ last_day st <> Some today
  /\ Forall (fun t => date t = today) (nows ++ [now])
  /\ daily_minutes_delta today sessions = 10
  /\ In daily_alert (popups (snd (tick false now commit_times before))).
Proof.
  intros today commit_times sessions st nows now before.
  assert (Hr : analyze_sessions commit_times = Some sessions) by reflexivity.
  assert (Hf : first_run st = false) by reflexivity.
  assert (Hnew : last_day st <> Some today) by discriminate.
  assert (Hall : Forall (fun t => date t = today) (nows ++ [now])).
  { apply Forall_forall. intros t Hin.
    apply in_app_or in Hin. destruct Hin as [Hin|[<-|[]]]; [|reflexivity].
    unfold nows in Hin. apply in_map_iff in Hin.
    destruct Hin as (i & <- & Hi). apply in_seq in Hi.
    unfold date, toordinal, at_time, usec_per_day, usec_per_second, today.
    assert (E : ((739923 - 1) * (86400 * 1000000)
                 + ((10 * 60 + 0) * 60 + Z.of_nat i) * 1000000)
                / (86400 * 1000000) = 739922).
    { symmetry.
      apply Z.div_unique
        with (r := ((10 * 60 + 0) * 60 + Z.of_nat i) * 1000000); lia. }
    rewrite E. reflexivity. }
  assert (Hd : daily_minutes_delta today sessions = 10) by reflexivity.
  split; [exact Hr|]. split; [exact Hf|]. split; [exact Hnew|].
  split; [exact Hall|]. split; [exact Hd|].
  apply (daily_alert_after_recount false commit_times sessions today nows now
           st Hr Hf Hnew Hall).
  rewrite Hd. unfold nows. rewrite length_map, length_seq. lia.
Defined.

(** ** What every state of a run satisfies *)

Lemma evaluate_rules_evaluated (now : datetime) (commit_times : list datetime)
    (sessions : list Session) (st : State) :
  analyze_sessions commit_times = Some sessions ->
  0 <= daily_coding_minutes st -> 0 <= weekly_coding_minutes st ->
  let st' := fst (evaluate_rules now sessions st) in
  evaluated st'
  /\ 0 <= daily_coding_minutes st' /\ 0 <= weekly_coding_minutes st'
  /\ last_break_reminder st' = last_break_reminder st.
Proof.
  intros Hr Hd Hw st'.
  destruct (evaluate_rules_last_day now sessions st) as (Hld & Hlw & _).
  destruct (evaluate_rules_minutes now _ _ st Hr) as (Hm & Hmw & Hd0 & Hw0).
  cbv zeta in Hm, Hmw. fold st' in Hld, Hlw, Hm, Hmw.
  split; [|split; [|split; [|reflexivity]]].
  - split; [congruence|]. split; [congruence|]. intros k.
    unfold st'. rewrite reminder_time_after.
    destruct (due k now st) eqn:E; [discriminate|].
    intros Hnone.
    assert (due k now st = true) by (apply due_iff; left; exact Hnone).
    congruence.
  - rewrite Hm. destruct (differs (last_day st) (date now)); lia.
  - rewrite Hmw. destruct (differs (last_week st) (isocalendar_week now)); lia.
Qed.

Lemma evaluated_not_never (st : State) :
  evaluated st -> ~ never_evaluated st.
Proof. intros (Hd & _) (Hn & _). contradiction. Qed.

Lemma ticks_invariant (print_func : bool)
    (inputs : list (datetime * list datetime)) :
  forall st,
    last_break_reminder st = None ->
    0 <= daily_coding_minutes st -> 0 <= weekly_coding_minutes st ->
    never_evaluated st \/ evaluated st ->
    let st' := fst (ticks print_func inputs st) in
    (last_break_reminder st' = None
     /\ 0 <= daily_coding_minutes st' /\ 0 <= weekly_coding_minutes st'
     /\ (never_evaluated st' \/ evaluated st'))
    /\ (never_evaluated st'
        <-> never_evaluated st
            /\ Forall (fun input => snd input = [])
                      (if first_run st then tl inputs else inputs)).
Proof.
  induction inputs as [|[now commit_times] inputs IH];
    intros st Hb Hd Hw Hcase st'.
  - unfold st'. cbn. split; [tauto|].
    destruct (first_run st); split; [intros H; split; [exact H|constructor]
                                    |tauto|intros H; split; [exact H|constructor]
                                    |tauto].
  - unfold st'. rewrite ticks_cons. cbn [fst].
    destruct (tick_branch print_func now commit_times st)
      as [Hf Hst Hp|Hf Hc Hst Hp|sessions Hf Hr Ht Hp].
    + rewrite Hst, Hf.
      destruct (IH (clear_first_run st) Hb Hd Hw Hcase) as [Hinv Hiff].
      cbv zeta in Hinv, Hiff. split; [exact Hinv|].
      rewrite Hiff. cbn [first_run clear_first_run tl]. reflexivity.
    + rewrite Hst, Hf.
      destruct (IH st Hb Hd Hw Hcase) as [Hinv Hiff].
      cbv zeta in Hinv, Hiff. split; [exact Hinv|].
      rewrite Hiff, Hf, Hc. split.
      * intros [Hn Hall]. split; [exact Hn|]. constructor; [reflexivity|].
        exact Hall.
      * intros [Hn Hall]. split; [exact Hn|]. inversion Hall; assumption.
    + rewrite Ht, Hf. cbn [fst].
      destruct (evaluate_rules_evaluated now _ _ st Hr Hd Hw)
        as (He & Hd' & Hw' & Hb').
      cbv zeta in He, Hd', Hw', Hb'. rewrite Hb in Hb'.
      destruct (IH _ Hb' Hd' Hw' (or_intror He)) as [Hinv Hiff].
      cbv zeta in Hinv, Hiff. split; [exact Hinv|].
      rewrite Hiff. split.
      * intros [Hn _]. exfalso. exact (evaluated_not_never _ He Hn).
      * intros [_ Hall]. exfalso. inversion Hall as [|? ? Hnil _]; subst.
        cbn [snd] in Hnil. subst. discriminate.
Qed.

(** X11.  In every state that iterations reach from the state on entry to
    the loop, the daily and weekly minutes are not negative, the time of the
    break reminder is never set, and either no rule was evaluated yet (no
    day, no week, no reminder time, no minutes, flag clear) or day, week and
    all four reminder times are set; the first holds exactly when no
    iteration after the first one found commits. *)
Theorem run_invariant (print_func : bool)
    (inputs : list (datetime * list datetime)) :
  let st := fst (ticks print_func inputs initial) in
  last_break_reminder st = None
  /\ 0 <= daily_coding_minutes st
  /\ 0 <= weekly_coding_minutes st
  /\ (never_evaluated st \/ evaluated st)
  /\ (never_evaluated st
      <-> Forall (fun input => snd input = []) (tl inputs))
  /\ (evaluated st
      <-> Exists (fun input => snd input <> []) (tl inputs)).
Proof.
  intros st.
  assert (Hinit : never_evaluated initial) by (repeat split).
  destruct (ticks_invariant print_func inputs initial eq_refl
              (Z.le_refl 0) (Z.le_refl 0) (or_introl Hinit))
    as [(Hb & Hd & Hw & Hcase) Hiff].
  cbv zeta in Hb, Hd, Hw, Hcase, Hiff. fold st in Hb, Hd, Hw, Hcase, Hiff.
  cbn [first_run initial] in Hiff.
  assert (Hnever : never_evaluated st
                   <-> Forall (fun input => snd input = []) (tl inputs))
    by (rewrite Hiff; tauto).
  split; [exact Hb|]. split; [exact Hd|]. split; [exact Hw|].
  split; [exact Hcase|]. split; [exact Hnever|].
  assert (Hsplit : forall l : list (datetime * list datetime),
            Forall (fun input => snd input = []) l
            \/ Exists (fun input => snd input <> []) l).
  { induction l as [|[t c] l [IHl|IHl]].
    - left. constructor.
    - destruct c; [left; constructor; [reflexivity|exact IHl]|].
      right. apply Exists_cons_hd. discriminate.
    - right. apply Exists_cons_tl, IHl. }
  assert (Hexcl : forall l : list (datetime * list datetime),
            Forall (fun input => snd input = []) l ->
            Exists (fun input => snd input <> []) l -> False).
  { intros l Hall Hex. rewrite Forall_forall in Hall.
    apply Exists_exists in Hex. destruct Hex as (x & Hin & Hx).
    exact (Hx (Hall x Hin)). }
  split.
  - intros He. destruct (Hsplit (tl inputs)) as [Hall|Hex]; [|exact Hex].
    exfalso. apply (evaluated_not_never _ He), Hnever, Hall.
  - intros Hex. destruct Hcase as [Hn|He]; [|exact He].
    exfalso. apply Hnever in Hn. exact (Hexcl _ Hn Hex).
Qed.

(** ** The summary and its notification *)

Lemma rstrip_app (a b : string) :
  rstrip b <> EmptyString -> rstrip (a ++ b) = (a ++ rstrip b)%string.
Proof.
  intros Hb. induction a as [|c a IH]; [reflexivity|].
  cbn [append rstrip]. rewrite IH.
  destruct (a ++ rstrip b)%string eqn:E; [|reflexivity].
  destruct a; simpl in E; [contradiction|discriminate].
Qed.

Lemma strip_long_message (n : nat) :
  strip ("You had " ++ str n
           ++ " long coding session(s). Remember to take breaks!" ++ newline)
  = ("You had " ++ str n
       ++ " long coding session(s). Remember to take breaks!")%string.
Proof.
  unfold strip.
  change (lstrip ("You had " ++ str n
                    ++ " long coding session(s). Remember to take breaks!"
                    ++ newline))
    with ("You had " ++ (str n
            ++ " long coding session(s). Remember to take breaks!"
            ++ newline))%string.
  rewrite rstrip_app; [f_equal|];
    (rewrite rstrip_app; [|try (f_equal; reflexivity); discriminate]).
  - reflexivity.
  - destruct (str n); discriminate.
Qed.

Lemma string_app_assoc (a b c : string) :
  ((a ++ b) ++ c = a ++ (b ++ c))%string.
Proof. induction a as [|x a IH]; simpl; [reflexivity|f_equal; exact IH]. Qed.

Lemma strip_both_message (n : nat) :
  strip (("You had " ++ str n
            ++ " long coding session(s). Remember to take breaks!" ++ newline)
           ++ "You committed code late at night. Prioritize rest!")
  = ("You had " ++ str n
       ++ " long coding session(s). Remember to take breaks!" ++ newline
       ++ "You committed code late at night. Prioritize rest!")%string.
Proof.
  rewrite !string_app_assoc. unfold strip.
  change (lstrip ("You had " ++ ?x)) with ("You had " ++ x)%string.
  rewrite rstrip_app; [f_equal|];
    (rewrite rstrip_app; [|discriminate]).
  - reflexivity.
  - destruct (str n); discriminate.
Qed.

Lemma get_summary_text_lines (sessions : list Session) :
  get_summary_text sessions = String.concat newline (summary_lines sessions).
Proof. reflexivity. Qed.

Lemma healthy_line_In (sessions : list Session) :
  In healthy_line (summary_lines sessions)
  <-> long_sessions sessions = [] /\ late_night_commits sessions = [].
Proof.
  unfold summary_lines, healthy_line.
  destruct (long_sessions sessions) as [|l ls];
    destruct (late_night_commits sessions) as [|c cs];
    cbn [nonempty negb andb app In];
    (split; [intros H; decompose [or] H; clear H;
              try discriminate; try contradiction; try (split; reflexivity)
            |intros [H1 H2]; try discriminate; tauto]).
Qed.

Lemma forallb_nonempty (sessions : list Session) :
  forallb nonempty sessions = true <-> Forall (fun s => s <> []) sessions.
Proof.
  rewrite forallb_forall, Forall_forall.
  split; intros H s Hs; specialize (H s Hs); destruct s;
    congruence || reflexivity || discriminate.
Qed.

(** X12.  On sessions none of which is empty, as [analyze_sessions] returns
    them, [print_summary] prints the summary and then sends one
    notification, or none when there is no notification backend.  It is the
    healthy notification exactly when the summary holds the healthy line,
    that is, when there is no long session and no late-night commit;
    otherwise it is the alert, whose message names the long sessions, the
    late-night commits, or both on two lines, with no newline at its end.
    With an empty session among them it raises before it prints. *)
Theorem print_summary_notification (notification : bool)
    (sessions : list Session) :
  Forall (fun s => s <> []) sessions ->
  let long := long_sessions sessions in
  let late := late_night_commits sessions in
  let long_message :=
    ("You had " ++ str (length long)
       ++ " long coding session(s). Remember to take breaks!")%string in
  let late_message :=
    "You committed code late at night. Prioritize rest!"%string in
  (exists n,
     print_summary notification sessions
     = Some (Line (String.concat newline (summary_lines sessions))
               :: (if notification then [Native n] else []))
     /\ (In healthy_line (summary_lines sessions) <-> long = [] /\ late = [])
     /\ (n = ("Developer Health"%string,
              "✅ Your coding habits look healthy!"%string)
         <-> long = [] /\ late = [])
     /\ (long <> [] -> late = [] ->
         n = ("Developer Health Alert"%string, long_message))
     /\ (long = [] -> late <> [] ->
         n = ("Developer Health Alert"%string, late_message))
     /\ (long <> [] -> late <> [] ->
         n = ("Developer Health Alert"%string,
              (long_message ++ newline ++ late_message)%string)))
  /\ (forall others,
        Exists (fun s => s = []) others ->
        print_summary notification others = None)
  /\ (forall commit_times returned,
        analyze_sessions commit_times = Some returned ->
        print_summary notification returned <> None).
Proof.
  intros Hne long late long_message late_message.
  split; [|split].
  2:{ intros others Hex. unfold print_summary.
      destruct (forallb nonempty others) eqn:E; [|reflexivity].
      apply forallb_nonempty in E. rewrite Forall_forall in E.
      apply Exists_exists in Hex. destruct Hex as (s & Hs & Hnil).
      exfalso. exact (E s Hs Hnil). }
  2:{ intros commit_times returned Hr.
      assert (Hc : commit_times <> []) by (intros ->; discriminate).
      destruct (analyze_sessions_segmented commit_times Hc)
        as (ss & Hr' & _ & (Hn & _) & _).
      rewrite Hr in Hr'. inversion Hr'; subst ss.
      unfold print_summary.
      rewrite (proj2 (forallb_nonempty returned) Hn). discriminate. }
  unfold print_summary. rewrite (proj2 (forallb_nonempty sessions) Hne).
  unfold show_native_notification, summary_alert_message.
  fold long late. rewrite get_summary_text_lines.
  pose proof (healthy_line_In sessions) as Hh. fold long late in Hh.
  destruct long as [|l ls] eqn:El; destruct late as [|c cs] eqn:Ec;
    cbn [nonempty orb].
  - exists ("Developer Health"%string,
            "✅ Your coding habits look healthy!"%string).
    split; [destruct notification; reflexivity|].
    split; [exact Hh|].
    split; [split; [intros _; split; reflexivity|intros _; reflexivity]|].
    split; [congruence|]. split; congruence.
  - exists ("Developer Health Alert"%string, late_message).
    split; [destruct notification; reflexivity|].
    split; [exact Hh|]. split; [|split; [congruence|split; [|congruence]]].
    + split; [discriminate|intros [_ H]; discriminate].
    + intros _ _. reflexivity.
  - exists ("Developer Health Alert"%string, long_message).
    split.
    { change (EmptyString ++ ?x)%string with x.
      rewrite (strip_long_message (length (l :: ls))).
      destruct notification; reflexivity. }
    split; [exact Hh|]. split; [|split; [|split; [congruence|congruence]]].
    + split; [discriminate|intros [H _]; discriminate].
    + intros _ _. reflexivity.
  - exists ("Developer Health Alert"%string,
            (long_message ++ newline ++ late_message)%string).
    split.
    { change (EmptyString ++ ?x)%string with x.
      rewrite (strip_both_message (length (l :: ls))).
      unfold long_message. rewrite !string_app_assoc.
      destruct notification; reflexivity. }
    split; [exact Hh|]. split; [|split; [congruence|split; [congruence|]]].
    + split; [discriminate|intros [H _]; discriminate].
    + intros _ _. reflexivity.
Qed.

(** One session of four hours on day 739923, started at 22:00 the evening
    before: a long session and late-night commits, so the alert on two
    lines. *)
Lemma print_summary_notification_witness :
  let sessions :=
    [map (fun i => at_time 739922 22 (5 * Z.of_nat i) 0) (seq 0 49)] in
  Forall (fun s => s <> []) sessions
  /\ exists n,
       print_summary true sessions
       = Some [Line (String.concat newline (summary_lines sessions));
               Native n]
       /\ n = ("Developer Health Alert"%string,
               ("You had 1 long coding session(s). Remember to take breaks!"
                  ++ newline
                  ++ "You committed code late at night. Prioritize rest!")%string).
Proof.
  intros sessions.
  assert (Hne : Forall (fun s => s <> []) sessions)
    by (repeat constructor; discriminate).
  destruct (print_summary_notification true sessions Hne)
    as ((n & Hp & _ & _ & _ & _ & Hboth) & _).
  split; [exact Hne|]. exists n. split; [exact Hp|].
  assert (Hlong : long_sessions sessions = sessions)
    by (vm_compute; reflexivity).
  assert (Hlate : late_night_commits sessions <> []).
  { assert (E : nonempty (late_night_commits sessions) = true)
      by (vm_compute; reflexivity).
    intros Hnil. rewrite Hnil in E. discriminate. }
  rewrite Hlong in Hboth.
  apply Hboth; [discriminate|exact Hlate].
Defined.

(** ** The command-line test mode *)

Lemma natives_app (e1 e2 : list Console) :
  natives (e1 ++ e2) = natives e1 ++ natives e2.
Proof. unfold natives. apply flat_map_app. Qed.

Lemma sum_app (l1 l2 : list Z) : sum (l1 ++ l2) = sum l1 + sum l2.
Proof.
  unfold sum. induction l1 as [|x l1 IH]; simpl; [reflexivity|]. lia.
Qed.

Lemma paused_app (e1 e2 : list Console) :
  paused (e1 ++ e2) = paused e1 + paused e2.
Proof. unfold paused. rewrite flat_map_app. apply sum_app. Qed.

Lemma test_popups_natives (notification : bool) :
  natives (test_popups notification)
  = (if notification then test_notifications else [])
  /\ paused (test_popups notification) = 20.
Proof. destruct notification; split; reflexivity. Qed.

Lemma command_loop_spec (str_strip : string -> string) (notification : bool)
    (lines : list string) :
  (snd (command_loop str_strip notification lines) = Returned
   <-> In "exit"%string (map str_strip lines))
  /\ natives (fst (command_loop str_strip notification lines))
     = (if notification
        then flat_map (fun cmd => if (cmd =? "pup-1")%string
                                  then test_notifications else [])
                      (until_exit (map str_strip lines))
        else [])
  /\ paused (fst (command_loop str_strip notification lines))
     = 20 * Z.of_nat (count_occ string_dec
                                (until_exit (map str_strip lines))
                                "pup-1"%string).
Proof.
  induction lines as [|line lines (IH1 & IH2 & IH3)].
  - cbn. split; [split; [discriminate|tauto]|].
    split; [destruct notification; reflexivity|reflexivity].
  - cbn [command_loop until_exit map].
    destruct (str_strip line =? "exit")%string eqn:Ex.
    + apply String.eqb_eq in Ex. rewrite Ex. cbn.
      split; [split; [intros _; left; reflexivity|reflexivity]|].
      split; [destruct notification; reflexivity|reflexivity].
    + apply String.eqb_neq in Ex.
      destruct (command_loop str_strip notification lines)
        as [events outcome].
      cbn [fst snd] in *. split; [|split].
      * rewrite IH1. cbn [In]. split; [tauto|].
        intros [H|H]; [congruence|exact H].
      * change (natives (Prompt "cli-test> " :: ?l)) with (natives l).
        rewrite natives_app, IH2. cbn [flat_map].
        destruct (str_strip line =? "pup-1")%string.
        -- rewrite (proj1 (test_popups_natives notification)).
           destruct notification; reflexivity.
        -- destruct notification; reflexivity.
      * change (paused (Prompt "cli-test> " :: ?l)) with (paused l).
        rewrite paused_app, IH3. cbn [count_occ].
        destruct (str_strip line =? "pup-1")%string eqn:Ep.
        -- apply String.eqb_eq in Ep. rewrite Ep.
           rewrite (proj2 (test_popups_natives notification)).
           destruct (string_dec "pup-1" "pup-1"); [lia|congruence].
        -- apply String.eqb_neq in Ep.
           destruct (string_dec (str_strip line) "pup-1"); [congruence|].
           change (paused [Line "Unknown command. Try 'pup-1' or 'exit'."])
             with 0.
           lia.
Qed.

Lemma command_loop_after_exit (str_strip : string -> string)
    (notification : bool) (lines : list string) (line : string)
    (after : list string) :
  str_strip line = "exit"%string ->
  command_loop str_strip notification (lines ++ line :: after)
  = command_loop str_strip notification (lines ++ [line]).
Proof.
  intros Hexit. induction lines as [|l lines IH].
  - cbn. rewrite Hexit. reflexivity.
  - cbn [app command_loop]. rewrite IH. reflexivity.
Qed.

(** X13.  [cli_test] strips every line it reads, with whatever [str.strip]
    does.  It returns exactly when a stripped line is [exit], and otherwise
    ends in [EOFError] when the input runs out; what comes after the first
    such line is never read.  Each line before it that strips to [pup-1]
    sends the ten test notifications in their order, or nothing when there
    is no notification backend, and sleeps twenty seconds either way; no
    other line notifies or sleeps. *)
Theorem cli_test_commands (str_strip : string -> string)
    (notification : bool) (lines : list string) :
  let commands := map str_strip lines in
  (snd (cli_test str_strip notification lines) = Returned
   <-> In "exit"%string commands)
  /\ (snd (cli_test str_strip notification lines) = RaisedEOFError
      <-> ~ In "exit"%string commands)
  /\ (forall line after,
        str_strip line = "exit"%string ->
        cli_test str_strip notification (lines ++ line :: after)
        = cli_test str_strip notification (lines ++ [line]))
  /\ natives (fst (cli_test str_strip notification lines))
     = (if notification
        then flat_map (fun cmd => if (cmd =? "pup-1")%string
                                  then test_notifications else [])
                      (until_exit commands)
        else [])
  /\ paused (fst (cli_test str_strip notification lines))
     = 20 * Z.of_nat (count_occ string_dec (until_exit commands)
                                "pup-1"%string).
Proof.
  intros commands. unfold commands.
  destruct (command_loop_spec str_strip notification lines) as (H1 & H2 & H3).
  unfold cli_test.
  split; [|split; [|split; [|split]]].
  - destruct (command_loop str_strip notification lines); exact H1.
  - destruct (command_loop str_strip notification lines) as [events outcome].
    cbn [snd] in *. rewrite <- H1. destruct outcome; split; congruence.
  - intros line after Hexit.
    rewrite (command_loop_after_exit _ _ _ _ after Hexit). reflexivity.
  - destruct (command_loop str_strip notification lines); exact H2.
  - destruct (command_loop str_strip notification lines); exact H3.
Qed.

(** Lines with blanks around the commands, stripped as ASCII text is: the
    first sends the ten notifications, the second ends the loop, the third
    is not read. *)
Example cli_test_stripped :
  snd (cli_test strip true [" pup-1 "; "exit  "; "pup-1"]%string) = Returned
  /\ natives (fst (cli_test strip true [" pup-1 "; "exit  "; "pup-1"]%string))
     = test_notifications
  /\ paused (fst (cli_test strip true [" pup-1 "; "exit  "; "pup-1"]%string))
     = 20.
Proof. vm_compute. repeat split. Qed.

(** X14.  The ten notifications of the command-line test mode and of the
    test mode of the window are, title and message, the ten notifications
    that a rule evaluation can show, in the same order, with the count 2 in
    the alert of long sessions; the window shows them 2000 milliseconds
    apart. *)
Theorem test_notifications_are_the_rules (now : datetime)
    (sessions : list Session) (st : State) :
  test_notifications = priority 2
  /\ gui_test_notifications = priority 2
  /\ map fst show_all
     = [0; 2000; 4000; 6000; 8000; 10000; 12000; 14000; 16000; 18000]
  /\ map snd show_all = priority 2
  /\ (length (long_sessions sessions) = 2%nat ->
      subsequence (snd (evaluate_rules now sessions st)) test_notifications).
Proof.
  split; [reflexivity|]. split; [reflexivity|]. split; [reflexivity|].
  split; [reflexivity|]. intros Hlen.
  change test_notifications with (priority 2). rewrite <- Hlen.
  apply collect_subsequence.
Qed.
